(** * Voice-bot backend: agent registry, LLM config registry and chat gateway

    A shallow embedding of [backend/server.py].  The document store is a
    record of three collections kept in storage order; every request handler
    is a computation in a state-and-exception monad over the world (the
    store, the number of identifiers drawn, the number of clock reads and the
    trace of calls made to the external LLM provider).  An exception leaves
    the writes made before it in place: the source opens no transaction. *)

From Stdlib Require Import ZArith List String Ascii Bool Lia.
Import ListNotations.
Local Open Scope string_scope.
Local Open Scope Z_scope.

(* ================================================================= *)
(** ** Timestamps: [datetime], [isoformat], [fromisoformat] *)

(** A [datetime] value as produced by [datetime.now(timezone.utc)]: an
    aware timestamp whose zone is UTC.  The zone is not a field: every
    timestamp this program creates carries [timezone.utc]. *)
Module Datetime.

Record datetime : Type := mkDatetime
  { year : Z; month : Z; day : Z;
    hour : Z; minute : Z; second : Z; microsecond : Z }.

Definition is_leap (y : Z) : bool :=
  ((y mod 4 =? 0) && negb (y mod 100 =? 0)) || (y mod 400 =? 0).

Definition days_in_month (y m : Z) : Z :=
  if m =? 2 then (if is_leap y then 29 else 28)
  else if (m =? 4) || (m =? 6) || (m =? 9) || (m =? 11) then 30
  else 31.

Definition between (lo x hi : Z) : bool := (lo <=? x) && (x <=? hi).

(** The range checks of the [datetime] constructor (MINYEAR = 1,
    MAXYEAR = 9999). *)
Definition valid (d : datetime) : bool :=
  between 1 (year d) 9999 && between 1 (month d) 12
  && between 1 (day d) (days_in_month (year d) (month d))
  && between 0 (hour d) 23 && between 0 (minute d) 59
  && between 0 (second d) 59 && between 0 (microsecond d) 999999.

Definition digit_char (d : Z) : ascii := ascii_of_N (48 + Z.to_N d).

Definition digit_val (c : ascii) : option Z :=
  let n := N_of_ascii c in
  if ((48 <=? n) && (n <=? 57))%N then Some (Z.of_N (n - 48)) else None.

(** ["%0kd" % n] for [0 <= n < 10^k]: most significant digit first. *)
Fixpoint zfill (k : nat) (n : Z) : string :=
  match k with
  | O => EmptyString
  | S k' => String (digit_char (n / 10 ^ Z.of_nat k'))
                   (zfill k' (n mod 10 ^ Z.of_nat k'))
  end.

(** [d.isoformat()] of a UTC-aware value:
    [YYYY-MM-DDTHH:MM:SS+00:00], with [.ffffff] after the seconds when
    the microsecond field is not zero. *)
Definition isoformat (d : datetime) : string :=
  zfill 4 (year d) ++ "-" ++ zfill 2 (month d) ++ "-" ++ zfill 2 (day d)
  ++ "T"
  ++ zfill 2 (hour d) ++ ":" ++ zfill 2 (minute d) ++ ":" ++ zfill 2 (second d)
  ++ (if microsecond d =? 0 then "" else "." ++ zfill 6 (microsecond d))
  ++ "+00:00".

(** Reads exactly [k] decimal digits, most significant first. *)
Fixpoint parse_digits (k : nat) (acc : Z) (s : string) : option (Z * string) :=
  match k with
  | O => Some (acc, s)
  | S k' =>
      match s with
      | EmptyString => None
      | String c rest =>
          match digit_val c with
          | Some v => parse_digits k' (10 * acc + v) rest
          | None => None
          end
      end
  end.

Definition read_digits (k : nat) (s : string) : option (Z * string) :=
  parse_digits k 0 s.

Definition expect (c : ascii) (s : string) : option string :=
  match s with
  | String c' rest => if Ascii.eqb c c' then Some rest else None
  | EmptyString => None
  end.

Definition skip_char (s : string) : option string :=
  match s with
  | String _ rest => Some rest
  | EmptyString => None
  end.

(** The optional fraction: a dot and six digits, or nothing. *)
Definition read_fraction (s : string) : option (Z * string) :=
  match s with
  | String "."%char rest => read_digits 6 rest
  | _ => Some (0, s)
  end.

(** [datetime.fromisoformat], on the renderings [isoformat] has for
    UTC-aware values (any one character may separate date and time, as in
    Python); [None] stands for the [ValueError] Python raises.  The model is
    partial: what it reads, Python reads to the same value, but Python also
    reads texts the model rejects (no offset or another offset, [Z], a
    three-digit fraction, the basic formats of Python 3.11).  A rejection by
    the model is a rejection by Python for the texts that do not begin with
    four decimal digits; no property below uses a rejection of any other
    text. *)
Definition fromisoformat (s : string) : option datetime :=
  match read_digits 4 s with None => None | Some (y, s) =>
  match expect "-" s with None => None | Some s =>
  match read_digits 2 s with None => None | Some (m, s) =>
  match expect "-" s with None => None | Some s =>
  match read_digits 2 s with None => None | Some (d, s) =>
  match skip_char s with None => None | Some s =>
  match read_digits 2 s with None => None | Some (hh, s) =>
  match expect ":" s with None => None | Some s =>
  match read_digits 2 s with None => None | Some (mm, s) =>
  match expect ":" s with None => None | Some s =>
  match read_digits 2 s with None => None | Some (ss, s) =>
  match read_fraction s with None => None | Some (us, s) =>
  if String.eqb s "+00:00" then
    let r := mkDatetime y m d hh mm ss us in
    if valid r then Some r else None
  else None
  end end end end end end end end end end end end.

(** The value truncated to whole seconds. *)
Definition to_second (d : datetime) : datetime :=
  mkDatetime (year d) (month d) (day d) (hour d) (minute d) (second d) 0.

End Datetime.
Export Datetime(datetime, mkDatetime, isoformat, fromisoformat).

(* ================================================================= *)
(** ** Domain models (the pydantic classes) *)

Module Agent.
Record t : Type := mk
  { id : string; name : string; description : string;
    system_prompt : string; language : string; is_active : bool;
    created_at : datetime }.
End Agent.

Module AgentCreate.
Record t : Type := mk
  { name : string; description : string; system_prompt : string;
    language : string }.
End AgentCreate.

(** Every field is [Optional[...] = None]. *)
Module AgentUpdate.
Record t : Type := mk
  { name : option string; description : option string;
    system_prompt : option string; language : option string;
    is_active : option bool }.
End AgentUpdate.

Module LLMConfig.
Record t : Type := mk
  { id : string; provider : string; api_key : string; model_name : string;
    created_at : datetime }.
End LLMConfig.

Module LLMConfigCreate.
Record t : Type := mk
  { provider : string; api_key : string; model_name : string }.
End LLMConfigCreate.

Module ConversationMessage.
Record t : Type := mk
  { id : string; session_id : string; agent_id : string; role : string;
    content : string; timestamp : datetime }.
End ConversationMessage.

Module ChatRequest.
Record t : Type := mk
  { agent_id : string; message : string; session_id : option string }.
End ChatRequest.

Module ChatResponse.
Record t : Type := mk { response : string; session_id : string }.
End ChatResponse.

(* ================================================================= *)
(** ** Stored documents and the three collections *)

(** A timestamp field as it sits in a stored document: the handlers write
    the ISO-8601 string, and the readers test [isinstance(..., str)], so a
    native date is the other case. *)
Inductive stored_time : Type :=
| TimeStr (s : string)
| TimeDate (d : datetime).

Module AgentDoc.
Record t : Type := mk
  { id : string; name : string; description : string;
    system_prompt : string; language : string; is_active : bool;
    created_at : stored_time }.
End AgentDoc.

Module LLMConfigDoc.
Record t : Type := mk
  { id : string; provider : string; api_key : string; model_name : string;
    created_at : stored_time }.
End LLMConfigDoc.

Module ConversationDoc.
Record t : Type := mk
  { id : string; session_id : string; agent_id : string; role : string;
    content : string; timestamp : stored_time }.
End ConversationDoc.

Record Database : Type := mkDatabase
  { agents : list AgentDoc.t;
    llm_configs : list LLMConfigDoc.t;
    conversations : list ConversationDoc.t }.

(** Collection operations of the driver, on a collection in storage order. *)
Module Collection.
Section Ops.
Context {D : Type}.

(** [find_one(filter)]: the first document that matches. *)
Definition find_one (p : D -> bool) (c : list D) : option D := find p c.

(** [find({}).to_list(n)]: at most the first [n] documents. *)
Definition to_list (n : nat) (c : list D) : list D := firstn n c.

Definition insert_one (d : D) (c : list D) : list D := c ++ [d].

Definition insert_many (ds : list D) (c : list D) : list D := c ++ ds.

(** [update_one(filter, {"$set": ...})]: rewrites the first match only. *)
Fixpoint update_one (p : D -> bool) (f : D -> D) (c : list D) : list D :=
  match c with
  | [] => []
  | d :: c' => if p d then f d :: c' else d :: update_one p f c'
  end.

(** [delete_one(filter)]: removes the first match; the second component is
    [deleted_count]. *)
Fixpoint delete_one (p : D -> bool) (c : list D) : list D * Z :=
  match c with
  | [] => ([], 0)
  | d :: c' =>
      if p d then (c', 1)
      else let '(r, n) := delete_one p c' in (d :: r, n)
  end.
End Ops.
End Collection.

(* ================================================================= *)
(** ** The external LLM client *)

Module LlmChat.
(** [llm_model] is [None] until [with_model] is called (the SDK's default). *)
Record t : Type := mk
  { api_key : option string; session_id : string; system_message : string;
    llm_model : option (string * string) }.

Definition init (key : option string) (sid sys : string) : t :=
  mk key sid sys None.

Definition with_model (c : t) (provider model : string) : t :=
  mk (api_key c) (session_id c) (system_message c) (Some (provider, model)).
End LlmChat.

Record UserMessage : Type := mkUserMessage { text : string }.

(** What one call of [send_message] comes to: the reply text, or an
    exception (a provider error or a timeout). *)
Inductive Outcome : Type :=
| Reply (reply : string)
| Failed (why : string).

Record ProviderCall : Type := mkCall
  { call_chat : LlmChat.t; call_message : UserMessage }.

(* ================================================================= *)
(** ** The world and the handler monad *)

Record World : Type := mkWorld
  { db : Database;
    uuid_draws : nat;                       (* calls of uuid.uuid4 so far *)
    clock_reads : nat;                      (* calls of datetime.now so far *)
    provider_calls : list ProviderCall }.   (* calls of send_message so far *)

(** What the process cannot decide itself: the identifiers [uuid.uuid4]
    hands out, the clock, the [EMERGENT_LLM_KEY] variable and the provider's
    answer to its n-th call. *)
Record Env : Type := mkEnv
  { uuid4 : nat -> string;
    utc_now : nat -> datetime;
    env_api_key : option string;
    provider : nat -> LlmChat.t -> UserMessage -> Outcome }.

Inductive Raised : Type :=
| HTTPException (status_code : Z) (detail : string)
| ValueError (input : string)    (* raised by fromisoformat on [input] *)
| TypeError (msg : string)
| ProviderError (msg : string).

(** The status the framework answers with: an [HTTPException] carries its
    own, any other exception is an internal server error. *)
Definition status_of (e : Raised) : Z :=
  match e with
  | HTTPException c _ => c
  | _ => 500
  end.

Definition M (A : Type) : Type := World -> (Raised + A) * World.

Definition ret {A} (a : A) : M A := fun w => (inr a, w).

Definition raise {A} (e : Raised) : M A := fun w => (inl e, w).

Definition bind {A B} (c : M A) (k : A -> M B) : M B :=
  fun w =>
    match c w with
    | (inl e, w') => (inl e, w')
    | (inr a, w') => k a w'
    end.

Declare Scope handler_scope.
Delimit Scope handler_scope with handler.
Notation "x <- c ;; k" := (bind c (fun x => k))
  (at level 61, c at next level, right associativity) : handler_scope.
Notation "c ;;; k" := (bind c (fun _ => k))
  (at level 61, right associativity) : handler_scope.

Fixpoint for_each {A B} (f : A -> M B) (l : list A) : M (list B) :=
  match l with
  | [] => ret []
  | a :: l' => bind (f a) (fun b => bind (for_each f l') (fun bs => ret (b :: bs)))
  end.

Definition reads {A} (f : World -> A) : M A := fun w => (inr (f w), w).

Definition set_agents (f : list AgentDoc.t -> list AgentDoc.t) : M unit :=
  fun w =>
    (inr tt,
     mkWorld (mkDatabase (f (agents (db w))) (llm_configs (db w))
                         (conversations (db w)))
             (uuid_draws w) (clock_reads w) (provider_calls w)).

Definition set_llm_configs
    (f : list LLMConfigDoc.t -> list LLMConfigDoc.t) : M unit :=
  fun w =>
    (inr tt,
     mkWorld (mkDatabase (agents (db w)) (f (llm_configs (db w)))
                         (conversations (db w)))
             (uuid_draws w) (clock_reads w) (provider_calls w)).

Definition set_conversations
    (f : list ConversationDoc.t -> list ConversationDoc.t) : M unit :=
  fun w =>
    (inr tt,
     mkWorld (mkDatabase (agents (db w)) (llm_configs (db w))
                         (f (conversations (db w))))
             (uuid_draws w) (clock_reads w) (provider_calls w)).

(** [db.agents.delete_one(filter)]; the result is [deleted_count]. *)
Definition delete_one_agent (p : AgentDoc.t -> bool) : M Z :=
  fun w =>
    let r := Collection.delete_one p (agents (db w)) in
    (inr (snd r),
     mkWorld (mkDatabase (fst r) (llm_configs (db w)) (conversations (db w)))
             (uuid_draws w) (clock_reads w) (provider_calls w)).

(** [db.llm_configs.delete_one(filter)]; the result is [deleted_count]. *)
Definition delete_one_llm_config (p : LLMConfigDoc.t -> bool) : M Z :=
  fun w =>
    let r := Collection.delete_one p (llm_configs (db w)) in
    (inr (snd r),
     mkWorld (mkDatabase (agents (db w)) (fst r) (conversations (db w)))
             (uuid_draws w) (clock_reads w) (provider_calls w)).

(* ================================================================= *)
(** ** Request handlers *)

(** Python truthiness of an [Optional[str]]: [None] and the empty string
    are both falsy. *)
Definition truthy (s : option string) : bool :=
  match s with
  | None => false
  | Some EmptyString => false
  | Some (String _ _) => true
  end.

(** One key of the [$set] document built by [update_agent]. *)
Inductive SetField : Type :=
| SetName (v : string)
| SetDescription (v : string)
| SetSystemPrompt (v : string)
| SetLanguage (v : string)
| SetIsActive (v : bool).

Definition present {A} (mk : A -> SetField) (v : option A) : list SetField :=
  match v with
  | Some x => [mk x]
  | None => []
  end.

(** [{k: v for k, v in agent_update.model_dump().items() if v is not None}],
    in field order. *)
Definition update_data (u : AgentUpdate.t) : list SetField :=
  present SetName (AgentUpdate.name u)
  ++ present SetDescription (AgentUpdate.description u)
  ++ present SetSystemPrompt (AgentUpdate.system_prompt u)
  ++ present SetLanguage (AgentUpdate.language u)
  ++ present SetIsActive (AgentUpdate.is_active u).

Definition set_field (d : AgentDoc.t) (f : SetField) : AgentDoc.t :=
  let '(AgentDoc.mk i n de sp la ac ca) := d in
  match f with
  | SetName v => AgentDoc.mk i v de sp la ac ca
  | SetDescription v => AgentDoc.mk i n v sp la ac ca
  | SetSystemPrompt v => AgentDoc.mk i n de v la ac ca
  | SetLanguage v => AgentDoc.mk i n de sp v ac ca
  | SetIsActive v => AgentDoc.mk i n de sp la v ca
  end.

(** The effect of [{"$set": update_data}] on one document. *)
Definition apply_set (fs : list SetField) (d : AgentDoc.t) : AgentDoc.t :=
  fold_left set_field fs d.

Definition id_is (i : string) (d : AgentDoc.t) : bool :=
  String.eqb (AgentDoc.id d) i.

Definition name_is (n : string) (d : AgentDoc.t) : bool :=
  String.eqb (AgentDoc.name d) n.

Definition config_id_is (i : string) (d : LLMConfigDoc.t) : bool :=
  String.eqb (LLMConfigDoc.id d) i.

(** [doc = agent.model_dump(); doc['created_at'] = doc['created_at'].isoformat()] *)
Definition agent_doc (a : Agent.t) : AgentDoc.t :=
  AgentDoc.mk (Agent.id a) (Agent.name a) (Agent.description a)
    (Agent.system_prompt a) (Agent.language a) (Agent.is_active a)
    (TimeStr (isoformat (Agent.created_at a))).

Definition llm_config_doc (c : LLMConfig.t) : LLMConfigDoc.t :=
  LLMConfigDoc.mk (LLMConfig.id c) (LLMConfig.provider c)
    (LLMConfig.api_key c) (LLMConfig.model_name c)
    (TimeStr (isoformat (LLMConfig.created_at c))).

Definition conversation_doc (m : ConversationMessage.t) : ConversationDoc.t :=
  ConversationDoc.mk (ConversationMessage.id m)
    (ConversationMessage.session_id m) (ConversationMessage.agent_id m)
    (ConversationMessage.role m) (ConversationMessage.content m)
    (TimeStr (isoformat (ConversationMessage.timestamp m))).

(** [if isinstance(x, str): x = datetime.fromisoformat(x)].  The
    [ValueError] is kept by the string that could not be read; the wording
    of the message Python builds from it is not modelled. *)
Definition rehydrate_time (t : stored_time) : M datetime :=
  match t with
  | TimeStr s =>
      match fromisoformat s with
      | Some d => ret d
      | None => raise (ValueError s)
      end
  | TimeDate d => ret d
  end.

Definition rehydrate_agent (d : AgentDoc.t) : M Agent.t :=
  bind (rehydrate_time (AgentDoc.created_at d)) (fun ts =>
  ret (Agent.mk (AgentDoc.id d) (AgentDoc.name d) (AgentDoc.description d)
         (AgentDoc.system_prompt d) (AgentDoc.language d)
         (AgentDoc.is_active d) ts)).

Definition rehydrate_llm_config (d : LLMConfigDoc.t) : M LLMConfig.t :=
  bind (rehydrate_time (LLMConfigDoc.created_at d)) (fun ts =>
  ret (LLMConfig.mk (LLMConfigDoc.id d) (LLMConfigDoc.provider d)
         (LLMConfigDoc.api_key d) (LLMConfigDoc.model_name d) ts)).

Definition ORDER_AGENT_NAME : string := "Order Taking Agent".

Definition nl : string := String (ascii_of_nat 10) EmptyString.

Definition ORDER_AGENT_PROMPT : string :=
  "You are an order-taking voice bot that speaks in clear Hindi. Your job is to take orders from customers."
  ++ nl ++ nl ++ "Instructions:"
  ++ nl ++ "1. Always speak in clear and simple Hindi"
  ++ nl ++ "2. Let the customer speak - do not interrupt"
  ++ nl ++ "3. When customer says something, let them finish completely"
  ++ nl ++ "4. Listen patiently and understand"
  ++ nl ++ "5. Collect all information before confirming the order"
  ++ nl ++ nl ++ "Order taking process:"
  ++ nl ++ "1. Say Namaste and ask what they want to order"
  ++ nl ++ "2. Note the item name"
  ++ nl ++ "3. Ask for quantity"
  ++ nl ++ "4. Ask for delivery address"
  ++ nl ++ "5. Confirm contact number"
  ++ nl ++ "6. Repeat all order information"
  ++ nl ++ "7. Ask for confirmation"
  ++ nl ++ nl ++ "Remember:"
  ++ nl ++ "- Speak in short sentences"
  ++ nl ++ "- Wait for customer response"
  ++ nl ++ "- Be polite and helpful"
  ++ nl ++ "- If you don't understand, ask again"
  ++ nl ++ nl ++ "Start with: Namaste! Main aapke order mein madad karunga. Aap kya order karna chahte hain?".

Section Handlers.
Context (E : Env).
Local Open Scope handler_scope.

(** [str(uuid.uuid4())] *)
Definition uuid4_str : M string :=
  fun w =>
    (inr (uuid4 E (uuid_draws w)),
     mkWorld (db w) (S (uuid_draws w)) (clock_reads w) (provider_calls w)).

(** [datetime.now(timezone.utc)] *)
Definition datetime_now : M datetime :=
  fun w =>
    (inr (utc_now E (clock_reads w)),
     mkWorld (db w) (uuid_draws w) (S (clock_reads w)) (provider_calls w)).

(** [await chat.send_message(msg)]: the call is recorded, then the
    provider's outcome is the result or the exception. *)
Definition send_message (chat : LlmChat.t) (msg : UserMessage) : M string :=
  fun w =>
    let w' := mkWorld (db w) (uuid_draws w) (clock_reads w)
                      (provider_calls w ++ [mkCall chat msg]) in
    match provider E (List.length (provider_calls w)) chat msg with
    | Reply r => (inr r, w')
    | Failed why => (inl (ProviderError why), w')
    end.

(** The [Agent(...)] constructor: the two default factories run in field
    order, [is_active] takes its default. *)
Definition new_Agent (name description system_prompt language : string)
  : M Agent.t :=
  i <- uuid4_str ;;
  ts <- datetime_now ;;
  ret (Agent.mk i name description system_prompt language true ts).

Definition new_LLMConfig (provider api_key model_name : string)
  : M LLMConfig.t :=
  i <- uuid4_str ;;
  ts <- datetime_now ;;
  ret (LLMConfig.mk i provider api_key model_name ts).

Definition new_ConversationMessage (session_id agent_id role content : string)
  : M ConversationMessage.t :=
  i <- uuid4_str ;;
  ts <- datetime_now ;;
  ret (ConversationMessage.mk i session_id agent_id role content ts).

Definition not_found {A} (detail : string) : M A :=
  raise (HTTPException 404 detail).

(** POST /agents *)
Definition create_agent (agent_data : AgentCreate.t) : M Agent.t :=
  agent <- new_Agent (AgentCreate.name agent_data)
                     (AgentCreate.description agent_data)
                     (AgentCreate.system_prompt agent_data)
                     (AgentCreate.language agent_data) ;;
  set_agents (Collection.insert_one (agent_doc agent)) ;;;
  ret agent.

(** GET /agents *)
Definition get_agents : M (list Agent.t) :=
  docs <- reads (fun w => Collection.to_list 1000 (agents (db w))) ;;
  for_each rehydrate_agent docs.

(** GET /agents/{agent_id} *)
Definition get_agent (agent_id : string) : M Agent.t :=
  agent <- reads (fun w => Collection.find_one (id_is agent_id) (agents (db w))) ;;
  match agent with
  | None => not_found "Agent not found"
  | Some doc => rehydrate_agent doc
  end.

(** PUT /agents/{agent_id} *)
Definition update_agent (agent_id : string) (agent_update : AgentUpdate.t)
  : M Agent.t :=
  existing_agent <-
    reads (fun w => Collection.find_one (id_is agent_id) (agents (db w))) ;;
  match existing_agent with
  | None => not_found "Agent not found"
  | Some _ =>
      let data := update_data agent_update in
      (match data with
       | [] => ret tt
       | _ :: _ =>
           set_agents (Collection.update_one (id_is agent_id) (apply_set data))
       end) ;;;
      updated_agent <-
        reads (fun w => Collection.find_one (id_is agent_id) (agents (db w))) ;;
      match updated_agent with
      | Some doc => rehydrate_agent doc
      | None => raise (TypeError "'NoneType' object is not subscriptable")
      end
  end.

(** DELETE /agents/{agent_id} *)
Definition delete_agent (agent_id : string) : M string :=
  deleted_count <- delete_one_agent (id_is agent_id) ;;
  if deleted_count =? 0 then not_found "Agent not found"
  else ret "Agent deleted successfully".

(** POST /llm-configs *)
Definition create_llm_config (config_data : LLMConfigCreate.t)
  : M LLMConfig.t :=
  config <- new_LLMConfig (LLMConfigCreate.provider config_data)
                          (LLMConfigCreate.api_key config_data)
                          (LLMConfigCreate.model_name config_data) ;;
  set_llm_configs (Collection.insert_one (llm_config_doc config)) ;;;
  ret config.

(** GET /llm-configs *)
Definition get_llm_configs : M (list LLMConfig.t) :=
  docs <- reads (fun w => Collection.to_list 1000 (llm_configs (db w))) ;;
  for_each rehydrate_llm_config docs.

(** DELETE /llm-configs/{config_id} *)
Definition delete_llm_config (config_id : string) : M string :=
  deleted_count <- delete_one_llm_config (config_id_is config_id) ;;
  if deleted_count =? 0 then not_found "Configuration not found"
  else ret "Configuration deleted successfully".

(** POST /chat *)
Definition chat_with_agent (request : ChatRequest.t) : M ChatResponse.t :=
  agent <-
    reads (fun w => Collection.find_one (id_is (ChatRequest.agent_id request))
                                        (agents (db w))) ;;
  match agent with
  | None => not_found "Agent not found"
  | Some agent =>
      (* session_id = request.session_id or str(uuid.uuid4()) *)
      session_id <-
        (if truthy (ChatRequest.session_id request)
         then ret (match ChatRequest.session_id request with
                   | Some s => s
                   | None => EmptyString
                   end)
         else uuid4_str) ;;
      let gemini_chat :=
        LlmChat.with_model
          (LlmChat.init (env_api_key E) session_id (AgentDoc.system_prompt agent))
          "gemini" "gemini-2.0-flash" in
      let user_message := mkUserMessage (ChatRequest.message request) in
      response <- send_message gemini_chat user_message ;;
      user_msg <-
        new_ConversationMessage session_id (ChatRequest.agent_id request)
                                "user" (ChatRequest.message request) ;;
      assistant_msg <-
        new_ConversationMessage session_id (ChatRequest.agent_id request)
                                "assistant" response ;;
      let user_doc := conversation_doc user_msg in
      let assistant_doc := conversation_doc assistant_msg in
      set_conversations (Collection.insert_many [user_doc; assistant_doc]) ;;;
      ret (ChatResponse.mk response session_id)
  end.

(** The startup hook: the default agent is created unless a document of
    that name is found. *)
Definition startup_event : M unit :=
  existing <-
    reads (fun w => Collection.find_one (name_is ORDER_AGENT_NAME)
                                        (agents (db w))) ;;
  match existing with
  | Some _ => ret tt
  | None =>
      order_agent <-
        new_Agent ORDER_AGENT_NAME
                  "Hindi voice bot for taking customer orders"
                  ORDER_AGENT_PROMPT "hindi" ;;
      set_agents (Collection.insert_one (agent_doc order_agent)) ;;;
      ret tt
  end.

(** One event of the process: a request to one of the endpoints, or a
    run of the startup hook. *)
Inductive Event : Type :=
| PostAgent (agent_data : AgentCreate.t)
| GetAgents
| GetAgent (agent_id : string)
| PutAgent (agent_id : string) (agent_update : AgentUpdate.t)
| DeleteAgent (agent_id : string)
| PostLLMConfig (config_data : LLMConfigCreate.t)
| GetLLMConfigs
| DeleteLLMConfig (config_id : string)
| PostChat (request : ChatRequest.t)
| Startup.

(** The world after an event, whatever the handler answered. *)
Definition handle (w : World) (e : Event) : World :=
  match e with
  | PostAgent d => snd (create_agent d w)
  | GetAgents => snd (get_agents w)
  | GetAgent i => snd (get_agent i w)
  | PutAgent i u => snd (update_agent i u w)
  | DeleteAgent i => snd (delete_agent i w)
  | PostLLMConfig d => snd (create_llm_config d w)
  | GetLLMConfigs => snd (get_llm_configs w)
  | DeleteLLMConfig i => snd (delete_llm_config i w)
  | PostChat r => snd (chat_with_agent r w)
  | Startup => snd (startup_event w)
  end.

Definition run (w : World) (es : list Event) : World := fold_left handle es w.
End Handlers.

Definition empty_db : Database := mkDatabase [] [] [].

Definition initial_world : World := mkWorld empty_db 0 0 [].

(* ================================================================= *)
(** ** Vocabulary of the statements *)

(** The record a stored document is read back as, when its timestamp can
    be read. *)
Definition record_of (d : AgentDoc.t) : option Agent.t :=
  match AgentDoc.created_at d with
  | TimeStr s =>
      match fromisoformat s with
      | Some ts =>
          Some (Agent.mk (AgentDoc.id d) (AgentDoc.name d) (AgentDoc.description d)
                  (AgentDoc.system_prompt d) (AgentDoc.language d)
                  (AgentDoc.is_active d) ts)
      | None => None
      end
  | TimeDate ts =>
      Some (Agent.mk (AgentDoc.id d) (AgentDoc.name d) (AgentDoc.description d)
              (AgentDoc.system_prompt d) (AgentDoc.language d)
              (AgentDoc.is_active d) ts)
  end.

Definition readable (d : AgentDoc.t) : Prop := record_of d <> None.

(** Identifiers never repeat: the assumption under which [uuid.uuid4] is
    used as a source of fresh names. *)
Definition never_repeats (E : Env) : Prop :=
  forall m n : nat, uuid4 E m = uuid4 E n -> m = n.

(** The clock only yields values the [datetime] type can hold. *)
Definition clock_valid (E : Env) : Prop :=
  forall t : nat, Datetime.valid (utc_now E t) = true.

(** Every stored agent identifier is one of the identifiers drawn so far. *)
Definition ids_drawn (E : Env) (w : World) : Prop :=
  Forall (fun d => exists k, (k < uuid_draws w)%nat /\ AgentDoc.id d = uuid4 E k)
         (agents (db w)).

(** How the agents of [w'] come from those of [w]: each keeps the
    identifier and the stored creation time of an agent of [w], or was
    created meanwhile, under an identifier drawn meanwhile and with the
    ISO-8601 string of a clock read. *)
Definition descends (E : Env) (w w' : World) : Prop :=
  (uuid_draws w <= uuid_draws w')%nat
  /\ forall d', In d' (agents (db w')) ->
       (exists d, In d (agents (db w))
                  /\ AgentDoc.id d' = AgentDoc.id d
                  /\ AgentDoc.created_at d' = AgentDoc.created_at d)
       \/ (exists k t, (uuid_draws w <= k < uuid_draws w')%nat
                       /\ AgentDoc.id d' = uuid4 E k
                       /\ AgentDoc.created_at d'
                          = TimeStr (isoformat (utc_now E t))).

Definition role_ok (m : ConversationDoc.t) : Prop :=
  ConversationDoc.role m = "user" \/ ConversationDoc.role m = "assistant".

(** A computation that leaves the conversations collection as it found
    it, whatever it answers. *)
Definition keeps_conversations {A} (c : M A) : Prop :=
  forall w, conversations (db (snd (c w))) = conversations (db w).

(** [w'] holds the conversations of [w] followed by user and assistant
    turns only. *)
Definition appends_turns (w w' : World) : Prop :=
  exists added,
    conversations (db w') = (conversations (db w) ++ added)%list
    /\ Forall role_ok added.

Definition is_gemini_call (c : ProviderCall) : Prop :=
  LlmChat.llm_model (call_chat c) = Some ("gemini", "gemini-2.0-flash").

(** The session a chat request runs under: the one it names, or the next
    identifier to be drawn. *)
Definition resolved_session (E : Env) (request : ChatRequest.t) (w : World)
  : string :=
  match ChatRequest.session_id request with
  | Some (String c s) => String c s
  | _ => uuid4 E (uuid_draws w)
  end.

(** The identifiers drawn once the session of a chat request is settled. *)
Definition draws_after_session (request : ChatRequest.t) (w : World) : nat :=
  if truthy (ChatRequest.session_id request) then uuid_draws w
  else S (uuid_draws w).

(** The provider call a chat request against [agent] makes. *)
Definition gemini_call (E : Env) (request : ChatRequest.t) (agent : AgentDoc.t)
    (w : World) : ProviderCall :=
  mkCall
    (LlmChat.with_model
       (LlmChat.init (env_api_key E) (resolved_session E request w)
                     (AgentDoc.system_prompt agent))
       "gemini" "gemini-2.0-flash")
    (mkUserMessage (ChatRequest.message request)).

(** The two documents a chat turn stores, given the provider's reply. *)
Definition user_turn (E : Env) (request : ChatRequest.t) (w : World)
  : ConversationDoc.t :=
  ConversationDoc.mk (uuid4 E (draws_after_session request w))
    (resolved_session E request w) (ChatRequest.agent_id request)
    "user" (ChatRequest.message request)
    (TimeStr (isoformat (utc_now E (clock_reads w)))).

Definition assistant_turn (E : Env) (request : ChatRequest.t) (w : World)
    (reply : string) : ConversationDoc.t :=
  ConversationDoc.mk (uuid4 E (S (draws_after_session request w)))
    (resolved_session E request w) (ChatRequest.agent_id request)
    "assistant" reply
    (TimeStr (isoformat (utc_now E (S (clock_reads w))))).

Definition or_default {A} (o : option A) (d : A) : A :=
  match o with
  | Some x => x
  | None => d
  end.

(** The document [d] with the non-null fields of [u] written over it. *)
Definition merged (u : AgentUpdate.t) (d : AgentDoc.t) : AgentDoc.t :=
  AgentDoc.mk (AgentDoc.id d)
    (or_default (AgentUpdate.name u) (AgentDoc.name d))
    (or_default (AgentUpdate.description u) (AgentDoc.description d))
    (or_default (AgentUpdate.system_prompt u) (AgentDoc.system_prompt d))
    (or_default (AgentUpdate.language u) (AgentDoc.language d))
    (or_default (AgentUpdate.is_active u) (AgentDoc.is_active d))
    (AgentDoc.created_at d).

Definition no_fields : AgentUpdate.t := AgentUpdate.mk None None None None None.

(* ================================================================= *)
(** ** A concrete environment, for running the handlers *)

Fixpoint tally (n : nat) : string :=
  match n with
  | O => EmptyString
  | S k => String "i" (tally k)
  end.

Definition sample_uuid4 (n : nat) : string := "uuid-" ++ tally n.

Definition sample_now (t : nat) : datetime :=
  mkDatetime 2025 1 15 10 30 7 (Z.of_nat t mod 1000000).

Definition echo_provider (n : nat) (c : LlmChat.t) (m : UserMessage) : Outcome :=
  Reply ("Namaste! " ++ text m).

Definition down_provider (n : nat) (c : LlmChat.t) (m : UserMessage) : Outcome :=
  Failed "timed out".

Definition sample_env : Env :=
  mkEnv sample_uuid4 sample_now (Some "sk-test") echo_provider.

Definition outage_env : Env :=
  mkEnv sample_uuid4 sample_now (Some "sk-test") down_provider.

Definition test_agent_data : AgentCreate.t :=
  AgentCreate.mk "Test Agent" "Test agent for automated testing"
                 "You are a test agent." "english".

(** The world after startup and one POST /agents. *)
Definition sample_world : World :=
  run sample_env initial_world [Startup; PostAgent test_agent_data].

(** A store of 1001 agents with the identifiers 0000 .. 1000. *)
Definition crowd_doc (k : nat) : AgentDoc.t :=
  AgentDoc.mk (Datetime.zfill 4 (Z.of_nat k)) "n" "d" "p" "hindi" true
              (TimeStr "2025-01-15T10:30:07+00:00").

Definition crowded_world : World :=
  mkWorld (mkDatabase (map crowd_doc (seq 0 1001)) [] []) 0 0 [].

(* ================================================================= *)
(** ** Vocabulary of the registry and run properties *)

(** No two stored agents share an identifier. *)
Definition unique_ids (w : World) : Prop :=
  NoDup (map AgentDoc.id (agents (db w))).

(** The exception of reading a stored timestamp that cannot be read. *)
Definition time_error (t : stored_time) : Raised :=
  match t with
  | TimeStr s => ValueError s
  | TimeDate _ => ValueError EmptyString
  end.

(** The records a list of documents is read back as, or the exception of
    the first document whose timestamp cannot be read. *)
Fixpoint records_of (docs : list AgentDoc.t) : Raised + list Agent.t :=
  match docs with
  | [] => inr []
  | d :: ds =>
      match record_of d with
      | None => inl (time_error (AgentDoc.created_at d))
      | Some a =>
          match records_of ds with
          | inl e => inl e
          | inr l => inr (a :: l)
          end
      end
  end.

Definition config_record_of (d : LLMConfigDoc.t) : option LLMConfig.t :=
  match LLMConfigDoc.created_at d with
  | TimeStr s =>
      match fromisoformat s with
      | Some ts =>
          Some (LLMConfig.mk (LLMConfigDoc.id d) (LLMConfigDoc.provider d)
                  (LLMConfigDoc.api_key d) (LLMConfigDoc.model_name d) ts)
      | None => None
      end
  | TimeDate ts =>
      Some (LLMConfig.mk (LLMConfigDoc.id d) (LLMConfigDoc.provider d)
              (LLMConfigDoc.api_key d) (LLMConfigDoc.model_name d) ts)
  end.

Fixpoint config_records_of (docs : list LLMConfigDoc.t)
  : Raised + list LLMConfig.t :=
  match docs with
  | [] => inr []
  | d :: ds =>
      match config_record_of d with
      | None => inl (time_error (LLMConfigDoc.created_at d))
      | Some c =>
          match config_records_of ds with
          | inl e => inl e
          | inr l => inr (c :: l)
          end
      end
  end.

Definition is_chat (e : Event) : bool :=
  match e with
  | PostChat _ => true
  | _ => false
  end.

(** Conversation documents that come as user turn, assistant turn, user
    turn, assistant turn, ..., each pair under one session and one agent. *)
Inductive paired : list ConversationDoc.t -> Prop :=
| paired_nil : paired []
| paired_cons (u a : ConversationDoc.t) (rest : list ConversationDoc.t) :
    ConversationDoc.role u = "user" ->
    ConversationDoc.role a = "assistant" ->
    ConversationDoc.session_id u = ConversationDoc.session_id a ->
    ConversationDoc.agent_id u = ConversationDoc.agent_id a ->
    paired rest ->
    paired (u :: a :: rest).

(* ================================================================= *)
(** ** The API tester ([backend_test.py]) *)

From Stdlib Require DecimalString.

(** [VoiceBotAPITester]: its bookkeeping ([log_result]), its one way of
    talking to the backend ([run_test]) and the two tests that only look at
    the status of the answer.  The backend is whatever answers at
    [base_url].  Python values that travel through the tester (JSON bodies,
    the remembered agent identifier) are of a type [Value] that the run-time
    supplies, with the operations the tester applies to them; a text is held
    as its UTF-8 bytes.

    This module is the tester as it runs when every [print] succeeds: its
    [log_result] is the bookkeeping [log_result] does before it prints.
    Module [PrintingTester] below adds the console, on which a [print] may
    raise, to [log_result] and [run_test]. *)
Module Tester.

Record TestResult : Type := mkResult
  { test : string; status : string; details : string }.

(** A byte that continues a UTF-8 character (10xxxxxx). *)
Definition is_continuation (c : ascii) : bool :=
  let n := N_of_ascii c in ((128 <=? n) && (n <? 192))%N.

(** [text[:n]]: the first [n] characters of a text. *)
Fixpoint first_chars (n : nat) (text : string) : string :=
  match text with
  | EmptyString => EmptyString
  | String c rest =>
      if is_continuation c then String c (first_chars n rest)
      else
        match n with
        | O => EmptyString
        | S n' => String c (first_chars n' rest)
        end
  end.

Section WithValues.
Context {Value : Type}.

Record Python : Type := mkPython
  { py_none : Value;
    py_dict : list (string * Value) -> Value;   (* a dict literal *)
    py_str : string -> Value;                   (* a str as a value *)
    py_truthy : Value -> bool;                  (* bool(v) *)
    py_format : Value -> string;                (* the text of v in an f-string *)
    unbound_local : string }.   (* str() of the UnboundLocalError for [response] *)

Record HttpRequest : Type := mkRequest
  { http_method : string; url : string; headers : list (string * string);
    json : option Value; timeout : Z }.

(** What a call of [requests.get/post/put/delete] comes to: a response (its
    [json] is [None] when the body is not JSON, so that [response.json()]
    raises), or the exception, by the [except] clause that catches it. *)
Inductive Transport : Type :=
| Responded (status_code : Z) (text : string) (body : option Value)
| TimedOut
| ConnectionFailed
| OtherError (msg : string).

(** The backend as the tester sees it: the outcome of the n-th request. *)
Definition Network : Type := nat -> HttpRequest -> Transport.

Record t : Type := mk
  { base_url : string;
    tests_run : Z;
    tests_passed : Z;
    test_results : list TestResult;
    created_agent_id : Value;
    sent : list HttpRequest }.     (* the requests made so far *)

Context (P : Python) (N : Network).

(** [__init__] *)
Definition init (base : string) : t := mk base 0 0 [] (py_none P) [].

Definition str_int (n : Z) : string :=
  DecimalString.NilZero.string_of_int (Z.to_int n).

(** [log_result(test_name, passed, details)], up to its prints: the
    counters and the list of results. *)
Definition log_result (test_name : string) (passed : bool) (details : string)
    (s : t) : t :=
  let run := tests_run s + 1 in
  let pass := if passed then tests_passed s + 1 else tests_passed s in
  let result := mkResult test_name (if passed then "PASSED" else "FAILED") details in
  mk (base_url s) run pass (test_results s ++ [result]) (created_agent_id s) (sent s).

Definition default_headers : list (string * string) :=
  [("Content-Type", "application/json")].

(** The call [run_test] makes for [method], if it makes one: only the four
    methods have a branch, and only POST and PUT pass the body. *)
Definition request_for (method url : string) (hs : list (string * string))
    (data : option Value) : option HttpRequest :=
  if String.eqb method "GET" then Some (mkRequest "GET" url hs None 10)
  else if String.eqb method "POST" then Some (mkRequest "POST" url hs data 10)
  else if String.eqb method "PUT" then Some (mkRequest "PUT" url hs data 10)
  else if String.eqb method "DELETE" then Some (mkRequest "DELETE" url hs None 10)
  else None.

(** [run_test(name, method, endpoint, expected_status, data, headers)] *)
Definition run_test (name method endpoint : string) (expected_status : Z)
    (data : option Value) (hs : option (list (string * string))) (s : t)
  : (bool * Value) * t :=
  let url := base_url s ++ "/" ++ endpoint in
  let hs := match hs with
            | None => default_headers
            | Some h => h
            end in
  match request_for method url hs data with
  | None =>
      (* no branch assigns [response]: the generic [except] clause *)
      ((false, py_dict P []),
       log_result name false ("Error: " ++ unbound_local P) s)
  | Some rq =>
      let s1 := mk (base_url s) (tests_run s) (tests_passed s) (test_results s)
                   (created_agent_id s) (sent s ++ [rq]) in
      match N (List.length (sent s)) rq with
      | Responded code text body =>
          if code =? expected_status then
            ((true, match body with
                    | Some v => v
                    | None => py_str P text
                    end),
             log_result name true ("Status: " ++ str_int code) s1)
          else
            ((false, py_dict P []),
             log_result name false
               ("Expected " ++ str_int expected_status ++ ", got " ++ str_int code
                ++ ". Response: " ++ first_chars 200 text) s1)
      | TimedOut =>
          ((false, py_dict P []), log_result name false "Request timeout" s1)
      | ConnectionFailed =>
          ((false, py_dict P []),
           log_result name false "Connection error - backend may be down" s1)
      | OtherError msg =>
          ((false, py_dict P []), log_result name false ("Error: " ++ msg) s1)
      end
  end.

(** [test_update_agent] *)
Definition test_update_agent (s : t) : bool * t :=
  if negb (py_truthy P (created_agent_id s)) then
    (false,
     log_result "PUT /api/agents/{agent_id} - Update agent" false
                "No agent ID available" s)
  else
    let update_data :=
      py_dict P [("description", py_str P "Updated test agent description")] in
    let '((success, _), s') :=
      run_test "PUT /api/agents/{agent_id} - Update agent" "PUT"
               ("agents/" ++ py_format P (created_agent_id s)) 200
               (Some update_data) None s in
    (success, s').

(** [test_delete_agent] *)
Definition test_delete_agent (s : t) : bool * t :=
  if negb (py_truthy P (created_agent_id s)) then
    (false,
     log_result "DELETE /api/agents/{agent_id} - Delete agent" false
                "No agent ID available" s)
  else
    let '((success, _), s') :=
      run_test "DELETE /api/agents/{agent_id} - Delete agent" "DELETE"
               ("agents/" ++ py_format P (created_agent_id s)) 200 None None s in
    (success, s').

(** One use of the tester. *)
Inductive Call : Type :=
| LogResult (test_name : string) (passed : bool) (details : string)
| RunTest (name method endpoint : string) (expected_status : Z)
          (data : option Value) (hs : option (list (string * string)))
| TestUpdateAgent
| TestDeleteAgent.

Definition call (s : t) (c : Call) : t :=
  match c with
  | LogResult n p d => log_result n p d s
  | RunTest n m e x d h => snd (run_test n m e x d h s)
  | TestUpdateAgent => snd (test_update_agent s)
  | TestDeleteAgent => snd (test_delete_agent s)
  end.

Definition calls (s : t) (cs : list Call) : t := fold_left call cs s.




End WithValues.

Arguments Python : clear implicits.
Arguments HttpRequest : clear implicits.
Arguments Transport : clear implicits.
Arguments Network : clear implicits.
Arguments t : clear implicits.
Arguments Call : clear implicits.

(** A small run-time: the values are [None], strings and dicts, a dict
    kept by its keys (only the empty dict is ever formatted); and a backend that answers 200 with an
    empty JSON object to every PUT and 404 with a text body to everything
    else. *)
Inductive Json : Type :=
| JNone
| JStr (s : string)
| JDict (keys : list string).

Definition json_truthy (v : Json) : bool :=
  match v with
  | JNone => false
  | JStr s => negb (String.eqb s "")
  | JDict keys => negb (Nat.eqb (List.length keys) 0)
  end.

Definition json_format (v : Json) : string :=
  match v with
  | JNone => "None"
  | JStr s => s
  | JDict _ => "{}"
  end.

Definition sample_python : Python Json :=
  mkPython JNone (fun items => JDict (map fst items)) JStr json_truthy json_format
           "local variable 'response' referenced before assignment".

Definition sample_network : Network Json :=
  fun _ rq =>
    if String.eqb (http_method rq) "PUT" then Responded 200 "{}" (Some (JDict []))
    else Responded 404 "Not Found" None.

Definition offline_network : Network Json := fun _ _ => ConnectionFailed.

End Tester.

(** [log_result] and [run_test] with the console.  [log_result] updates the
    counters and the list of results and then prints one or two lines; a
    [print] raises when the console cannot take the text (an encoding that
    lacks the status icon, a closed pipe).  [run_test] calls [log_result]
    inside its [try] and again inside its [except] clauses, so that an
    exception of the first call is caught and logged by a second one, and an
    exception of a call made in an [except] clause leaves [run_test]. *)
Module PrintingTester.

(** The status icons, U+2705 and U+274C. *)
Definition PASS_ICON : string :=
  String (ascii_of_nat 226) (String (ascii_of_nat 156)
    (String (ascii_of_nat 133) EmptyString)).

Definition FAIL_ICON : string :=
  String (ascii_of_nat 226) (String (ascii_of_nat 157)
    (String (ascii_of_nat 140) EmptyString)).

(** The console: given the texts printed so far, a [print] of a text
    succeeds ([None]) or raises an exception, given by its [str()]. *)
Definition Console : Type := list string -> string -> option string.

(** An exception that leaves a method of the tester, by its [str()]. *)
Inductive Escaped : Type :=
| Exception (msg : string).

Section WithConsole.
Context {Value : Type}.

Record t : Type := mk
  { tester : Tester.t Value;
    stdout : list string }.      (* the texts printed so far *)

Context (P : Tester.Python Value) (N : Tester.Network Value) (C : Console).

(** [print(text)] *)
Definition print (text : string) (s : t) : (Escaped + unit) * t :=
  match C (stdout s) text with
  | None => (inr tt, mk (tester s) (stdout s ++ [text]))
  | Some msg => (inl (Exception msg), s)
  end.

(** [log_result(test_name, passed, details)] *)
Definition log_result (test_name : string) (passed : bool) (details : string)
    (s : t) : (Escaped + unit) * t :=
  let s1 := mk (Tester.log_result test_name passed details (tester s))
               (stdout s) in
  let status_icon := if passed then PASS_ICON else FAIL_ICON in
  match print (nl ++ status_icon ++ " " ++ test_name) s1 with
  | (inl e, s2) => (inl e, s2)
  | (inr _, s2) =>
      match details with
      | EmptyString => (inr tt, s2)
      | String _ _ => print ("   " ++ details) s2
      end
  end.

(** The body of an [except] clause of [run_test]:
    [self.log_result(name, False, details); return False, {}]. *)
Definition log_failure (name details : string) (s : t)
  : (Escaped + (bool * Value)) * t :=
  match log_result name false details s with
  | (inl e, s') => (inl e, s')
  | (inr _, s') => (inr (false, Tester.py_dict P []), s')
  end.

(** [run_test(name, method, endpoint, expected_status, data, headers)] *)
Definition run_test (name method endpoint : string) (expected_status : Z)
    (data : option Value) (hs : option (list (string * string))) (s : t)
  : (Escaped + (bool * Value)) * t :=
  let url := Tester.base_url (tester s) ++ "/" ++ endpoint in
  let hs := match hs with
            | None => Tester.default_headers
            | Some h => h
            end in
  match Tester.request_for method url hs data with
  | None =>
      (* no branch assigns [response]: the generic [except] clause *)
      log_failure name ("Error: " ++ Tester.unbound_local P) s
  | Some rq =>
      let u := tester s in
      let s1 := mk (Tester.mk (Tester.base_url u) (Tester.tests_run u)
                      (Tester.tests_passed u) (Tester.test_results u)
                      (Tester.created_agent_id u) (Tester.sent u ++ [rq]))
                   (stdout s) in
      match N (List.length (Tester.sent u)) rq with
      | Tester.Responded code text body =>
          if code =? expected_status then
            match log_result name true ("Status: " ++ Tester.str_int code) s1 with
            | (inr _, s2) =>
                (inr (true, match body with
                            | Some v => v
                            | None => Tester.py_str P text
                            end), s2)
            | (inl (Exception msg), s2) => log_failure name ("Error: " ++ msg) s2
            end
          else
            match log_result name false
                    ("Expected " ++ Tester.str_int expected_status ++ ", got "
                     ++ Tester.str_int code ++ ". Response: "
                     ++ Tester.first_chars 200 text) s1 with
            | (inr _, s2) => (inr (false, Tester.py_dict P []), s2)
            | (inl (Exception msg), s2) => log_failure name ("Error: " ++ msg) s2
            end
      | Tester.TimedOut => log_failure name "Request timeout" s1
      | Tester.ConnectionFailed =>
          log_failure name "Connection error - backend may be down" s1
      | Tester.OtherError msg => log_failure name ("Error: " ++ msg) s1
      end
  end.

End WithConsole.

Arguments t : clear implicits.

(** A console that cannot encode the status icons, as an ASCII terminal:
    it raises on every text that holds a byte above 127. *)
Fixpoint is_ascii_text (text : string) : bool :=
  match text with
  | EmptyString => true
  | String c rest => (N_of_ascii c <? 128)%N && is_ascii_text rest
  end.

Definition ascii_console : Console :=
  fun _ text =>
    if is_ascii_text text then None
    else Some "'ascii' codec can't encode character".

Definition utf8_console : Console := fun _ _ => None.

End PrintingTester.

(* ================================================================= *)
(** * Properties *)

(** ** The timestamp round trip *)

Lemma digit_val_digit_char (d : Z) :
  0 <= d <= 9 -> Datetime.digit_val (Datetime.digit_char d) = Some d.
Proof.
  intros H.
  assert (C : d = 0 \/ d = 1 \/ d = 2 \/ d = 3 \/ d = 4 \/ d = 5 \/ d = 6
              \/ d = 7 \/ d = 8 \/ d = 9) by lia.
  repeat (destruct C as [-> | C]; [reflexivity |]).
  subst d; reflexivity.
Qed.

Lemma parse_digits_zfill (k : nat) :
  forall (n acc : Z) (rest : string),
    0 <= n < 10 ^ Z.of_nat k ->
    Datetime.parse_digits k acc (Datetime.zfill k n ++ rest)
    = Some (acc * 10 ^ Z.of_nat k + n, rest).
Proof.
  induction k as [| k IH]; intros n acc rest Hn.
  - cbn [Datetime.parse_digits Datetime.zfill append].
    change (10 ^ Z.of_nat 0) with 1 in *. f_equal. f_equal. lia.
  - cbn [Datetime.parse_digits Datetime.zfill append].
    rewrite Nat2Z.inj_succ, Z.pow_succ_r in Hn by lia.
    set (p := 10 ^ Z.of_nat k) in *.
    assert (Hp : 0 < p) by (subst p; apply Z.pow_pos_nonneg; lia).
    assert (Hq : 0 <= n / p <= 9).
    { split.
      - apply Z.div_pos; lia.
      - assert (n / p < 10); [apply Z.div_lt_upper_bound; lia | lia]. }
    rewrite digit_val_digit_char by exact Hq.
    rewrite IH by (apply Z.mod_pos_bound; exact Hp).
    f_equal. f_equal.
    rewrite Nat2Z.inj_succ, Z.pow_succ_r by lia. fold p.
    pose proof (Z.div_mod n p ltac:(lia)) as Hdm. nia.
Qed.

Lemma read_digits_zfill (k : nat) (n : Z) (rest : string) :
  0 <= n < 10 ^ Z.of_nat k ->
  Datetime.read_digits k (Datetime.zfill k n ++ rest) = Some (n, rest).
Proof.
  intros H. unfold Datetime.read_digits.
  rewrite parse_digits_zfill by exact H. reflexivity.
Qed.

Lemma valid_ranges (d : datetime) :
  Datetime.valid d = true ->
  0 <= Datetime.year d < 10 ^ Z.of_nat 4
  /\ 0 <= Datetime.month d < 10 ^ Z.of_nat 2
  /\ 0 <= Datetime.day d < 10 ^ Z.of_nat 2
  /\ 0 <= Datetime.hour d < 10 ^ Z.of_nat 2
  /\ 0 <= Datetime.minute d < 10 ^ Z.of_nat 2
  /\ 0 <= Datetime.second d < 10 ^ Z.of_nat 2
  /\ 0 <= Datetime.microsecond d < 10 ^ Z.of_nat 6.
Proof.
  unfold Datetime.valid, Datetime.between. intros H.
  repeat (apply andb_prop in H; destruct H as [H ?]).
  repeat match goal with
         | X : (_ <=? _) = true |- _ => apply Z.leb_le in X
         end.
  assert (Datetime.days_in_month (Datetime.year d) (Datetime.month d) <= 31).
  { unfold Datetime.days_in_month.
    repeat match goal with |- context [if ?b then _ else _] => destruct b end; lia. }
  change (10 ^ Z.of_nat 4) with 10000.
  change (10 ^ Z.of_nat 2) with 100.
  change (10 ^ Z.of_nat 6) with 1000000.
  lia.
Qed.

(** Reading back what [isoformat] wrote gives the value it was given, down
    to the microsecond. *)
Lemma fromisoformat_isoformat (d : datetime) :
  Datetime.valid d = true -> fromisoformat (isoformat d) = Some d.
Proof.
  intros Hv.
  destruct (valid_ranges d Hv) as (Hy & Hm & Hd & Hh & Hmi & Hs & Hu).
  unfold fromisoformat, isoformat.
  rewrite read_digits_zfill by exact Hy. cbn [append Datetime.expect Ascii.eqb Bool.eqb].
  rewrite read_digits_zfill by exact Hm. cbn [append Datetime.expect Ascii.eqb Bool.eqb].
  rewrite read_digits_zfill by exact Hd. cbn [append Datetime.skip_char].
  rewrite read_digits_zfill by exact Hh. cbn [append Datetime.expect Ascii.eqb Bool.eqb].
  rewrite read_digits_zfill by exact Hmi. cbn [append Datetime.expect Ascii.eqb Bool.eqb].
  rewrite read_digits_zfill by exact Hs.
  destruct (Datetime.microsecond d =? 0) eqn:Hz.
  - apply Z.eqb_eq in Hz.
    cbn [append Datetime.read_fraction]. cbn [String.eqb Ascii.eqb Bool.eqb].
    destruct d as [y m dd hh mm ss us]; cbn in Hz; subst us.
    cbn [Datetime.year Datetime.month Datetime.day Datetime.hour
         Datetime.minute Datetime.second Datetime.microsecond] in *.
    rewrite Hv. reflexivity.
  - cbn [append Datetime.read_fraction].
    rewrite read_digits_zfill by exact Hu. cbn [String.eqb Ascii.eqb Bool.eqb].
    destruct d as [y m dd hh mm ss us].
    cbn [Datetime.year Datetime.month Datetime.day Datetime.hour
         Datetime.minute Datetime.second Datetime.microsecond] in *.
    rewrite Hv. reflexivity.
Qed.

(* ================================================================= *)
(** ** Collections *)

Lemma find_one_none {D} (p : D -> bool) (c : list D) :
  (forall d, In d c -> p d = false) -> Collection.find_one p c = None.
Proof.
  unfold Collection.find_one.
  induction c as [| d c IH]; intros H; cbn; [reflexivity |].
  rewrite (H d (or_introl eq_refl)). apply IH.
  intros x Hx. apply H. right. exact Hx.
Qed.

Lemma find_one_some {D} (p : D -> bool) (c : list D) (d : D) :
  Collection.find_one p c = Some d -> In d c /\ p d = true.
Proof. unfold Collection.find_one. apply find_some. Qed.

Lemma find_one_update_one {D} (p : D -> bool) (f : D -> D) (c : list D) (d : D) :
  Collection.find_one p c = Some d ->
  p (f d) = true ->
  Collection.find_one p (Collection.update_one p f c) = Some (f d).
Proof.
  unfold Collection.find_one.
  induction c as [| x c IH]; cbn; intros Hf Hp; [discriminate |].
  destruct (p x) eqn:Hx.
  - injection Hf as ->. cbn. rewrite Hp. reflexivity.
  - cbn. rewrite Hx. apply IH; assumption.
Qed.

Lemma find_one_insert_one_fresh {D} (p : D -> bool) (c : list D) (d : D) :
  (forall x, In x c -> p x = false) ->
  p d = true ->
  Collection.find_one p (Collection.insert_one d c) = Some d.
Proof.
  unfold Collection.find_one, Collection.insert_one.
  induction c as [| x c IH]; cbn; intros Hc Hd.
  - rewrite Hd. reflexivity.
  - rewrite (Hc x (or_introl eq_refl)). apply IH; [| exact Hd].
    intros y Hy. apply Hc. right. exact Hy.
Qed.

(* ================================================================= *)
(** ** What each handler computes *)

Lemma rehydrate_agent_eq (d : AgentDoc.t) (w : World) :
  rehydrate_agent d w =
  (match record_of d with
   | Some a => inr a
   | None => inl (time_error (AgentDoc.created_at d))
   end, w).
Proof.
  unfold rehydrate_agent, record_of, rehydrate_time, time_error, bind, ret, raise.
  destruct (AgentDoc.created_at d) as [s | ts]; [| reflexivity].
  destruct (fromisoformat s); reflexivity.
Qed.

Lemma for_each_rehydrate_world (docs : list AgentDoc.t) (w : World) :
  snd (for_each rehydrate_agent docs w) = w.
Proof.
  induction docs as [| d docs IH]; [reflexivity |].
  cbn [for_each]. unfold bind at 1. rewrite rehydrate_agent_eq.
  destruct (record_of d); [| reflexivity].
  unfold bind. destruct (for_each rehydrate_agent docs w) as [[e | l] w'];
    cbn in IH; subst w'; reflexivity.
Qed.

Lemma for_each_rehydrate_readable (docs : list AgentDoc.t) (w : World) :
  Forall readable docs ->
  exists l, for_each rehydrate_agent docs w = (inr l, w)
            /\ map Some l = map record_of docs.
Proof.
  induction 1 as [| d docs Hd _ IH].
  - exists []. split; reflexivity.
  - destruct IH as (l & Hl & Hm).
    unfold readable in Hd. destruct (record_of d) as [a |] eqn:Ha; [| congruence].
    exists (a :: l). cbn [for_each]. unfold bind at 1.
    rewrite rehydrate_agent_eq, Ha. unfold bind. rewrite Hl. cbn.
    rewrite Ha, Hm. split; reflexivity.
Qed.

Lemma chat_with_agent_eq (E : Env) (request : ChatRequest.t) (w : World) :
  chat_with_agent E request w =
  match Collection.find_one (id_is (ChatRequest.agent_id request)) (agents (db w)) with
  | None => (inl (HTTPException 404 "Agent not found"), w)
  | Some agent =>
      let c := gemini_call E request agent w in
      let n := draws_after_session request w in
      match provider E (List.length (provider_calls w)) (call_chat c) (call_message c) with
      | Failed why =>
          (inl (ProviderError why),
           mkWorld (db w) n (clock_reads w) (provider_calls w ++ [c]))
      | Reply r =>
          (inr (ChatResponse.mk r (resolved_session E request w)),
           mkWorld
             (mkDatabase (agents (db w)) (llm_configs (db w))
                (conversations (db w)
                 ++ [user_turn E request w; assistant_turn E request w r]))
             (S (S n)) (S (S (clock_reads w))) (provider_calls w ++ [c]))
      end
  end.
Proof.
  unfold chat_with_agent, bind at 1, reads, not_found, raise.
  destruct (Collection.find_one _ _) as [agent |]; [| reflexivity].
  unfold gemini_call, user_turn, assistant_turn, draws_after_session,
    resolved_session.
  destruct request as [aid msg [[| ch sid] |]]; cbn;
    unfold bind, ret, send_message, uuid4_str; cbn;
    destruct (provider E _ _ _); reflexivity.
Qed.

(* ================================================================= *)
(** ** Chat gateway *)

(** C1.  A chat request whose [agent_id] is the identifier of no stored
    agent is answered with 404 "Agent not found", and the world after it is
    the world before it: nothing is written to any collection. *)
Theorem chat_unknown_agent_not_found
    (E : Env) (request : ChatRequest.t) (w : World) :
  (forall d, In d (agents (db w)) ->
             AgentDoc.id d <> ChatRequest.agent_id request) ->
  chat_with_agent E request w = (inl (HTTPException 404 "Agent not found"), w)
  /\ status_of (HTTPException 404 "Agent not found") = 404
  /\ conversations (db (snd (chat_with_agent E request w))) = conversations (db w).
Proof.
  intros Hno.
  assert (Hchat : chat_with_agent E request w
                  = (inl (HTTPException 404 "Agent not found"), w)).
  { rewrite chat_with_agent_eq, find_one_none; [reflexivity |].
    intros d Hd. unfold id_is. apply String.eqb_neq. apply Hno. exact Hd. }
  rewrite Hchat. repeat split.
Qed.

Lemma chat_unknown_agent_not_found_witness :
  (forall d, In d (agents (db sample_world)) ->
             AgentDoc.id d <> ChatRequest.agent_id (ChatRequest.mk "nobody" "hello" None))
  /\ chat_with_agent sample_env (ChatRequest.mk "nobody" "hello" None) sample_world
     = (inl (HTTPException 404 "Agent not found"), sample_world).
Proof.
  assert (H : forall d, In d (agents (db sample_world)) ->
                        AgentDoc.id d <> "nobody").
  { intros d Hd. vm_compute in Hd.
    destruct Hd as [<- | [<- | []]]; discriminate. }
  split; [exact H |].
  exact (proj1 (chat_unknown_agent_not_found sample_env
                  (ChatRequest.mk "nobody" "hello" None) sample_world H)).
Defined.

(** C2.  When the agent exists and the provider call fails (an error or a
    timeout), the exception reaches the caller as a 500; the provider was
    called once, and the store is the one the request found: neither turn
    was written. *)
Theorem chat_provider_failure_propagates
    (E : Env) (request : ChatRequest.t) (w : World) (agent : AgentDoc.t)
    (why : string) :
  Collection.find_one (id_is (ChatRequest.agent_id request)) (agents (db w))
  = Some agent ->
  provider E (List.length (provider_calls w))
           (call_chat (gemini_call E request agent w))
           (call_message (gemini_call E request agent w)) = Failed why ->
  exists w',
    chat_with_agent E request w = (inl (ProviderError why), w')
    /\ status_of (ProviderError why) = 500
    /\ db w' = db w
    /\ provider_calls w' = (provider_calls w ++ [gemini_call E request agent w])%list.
Proof.
  intros Hfound Hfail.
  rewrite chat_with_agent_eq, Hfound. cbv zeta. rewrite Hfail.
  eexists. repeat split.
Qed.

Lemma chat_provider_failure_propagates_witness :
  exists w',
    chat_with_agent outage_env (ChatRequest.mk "uuid-i" "hello" (Some "s1"))
                    sample_world = (inl (ProviderError "timed out"), w')
    /\ status_of (ProviderError "timed out") = 500
    /\ db w' = db sample_world
    /\ List.length (provider_calls w') = 1%nat.
Proof.
  destruct (chat_provider_failure_propagates outage_env
              (ChatRequest.mk "uuid-i" "hello" (Some "s1")) sample_world
              (AgentDoc.mk "uuid-i" "Test Agent" "Test agent for automated testing"
                 "You are a test agent." "english" true
                 (TimeStr "2025-01-15T10:30:07.000001+00:00"))
              "timed out" eq_refl eq_refl)
    as (w' & H1 & H2 & H3 & H4).
  exists w'. repeat split; try assumption.
  rewrite H4. reflexivity.
Defined.

(** C3 as stated fails for a request that passes the empty
    string as its [session_id]: the answer names a minted session. *)
Lemma chat_empty_session_id_counterexample :
  exists r w',
    chat_with_agent sample_env (ChatRequest.mk "uuid-i" "hello" (Some ""))
                    sample_world = (inr r, w')
    /\ ChatResponse.session_id r <> "".
Proof.
  eexists. eexists. split.
  - vm_compute. reflexivity.
  - cbn. discriminate.
Qed.

(** C3 (amended).  A chat request that names a non-empty [session_id] is
    answered under that very session.  A request with no [session_id], or
    with the empty one, is answered under a minted session: the next
    identifier drawn, which differs from every identifier drawn before and
    is counted as drawn from then on. *)
Theorem chat_session_id_resolution
    (E : Env) (request : ChatRequest.t) (w w' : World) (r : ChatResponse.t) :
  never_repeats E ->
  chat_with_agent E request w = (inr r, w') ->
  (forall s, ChatRequest.session_id request = Some s -> s <> "" ->
             ChatResponse.session_id r = s)
  /\ (ChatRequest.session_id request = None
      \/ ChatRequest.session_id request = Some "" ->
      ChatResponse.session_id r = uuid4 E (uuid_draws w)
      /\ (forall k, (k < uuid_draws w)%nat ->
                    uuid4 E k <> ChatResponse.session_id r)
      /\ (uuid_draws w < uuid_draws w')%nat).
Proof.
  intros Hinj Hchat. rewrite chat_with_agent_eq in Hchat.
  destruct (Collection.find_one _ _) as [agent |]; [| discriminate].
  cbv zeta in Hchat.
  destruct (provider E _ _ _) as [reply | why]; [| discriminate].
  injection Hchat as <- <-. cbn [ChatResponse.session_id uuid_draws].
  unfold resolved_session, draws_after_session. split.
  - intros s Hs Hne. rewrite Hs. destruct s; [congruence | reflexivity].
  - intros [Hs | Hs]; rewrite Hs; cbn [truthy]; repeat split.
    + intros k Hk Heq. apply Hinj in Heq. lia.
    + lia.
    + intros k Hk Heq. apply Hinj in Heq. lia.
    + lia.
Qed.

Lemma tally_length (n : nat) : String.length (tally n) = n.
Proof. induction n; cbn; congruence. Qed.

Lemma sample_uuid4_never_repeats : never_repeats sample_env.
Proof.
  intros m n H. cbn in H. unfold sample_uuid4 in H.
  cbn [append] in H. injection H as H.
  apply (f_equal String.length) in H.
  rewrite !tally_length in H. exact H.
Qed.

Lemma chat_session_id_resolution_witness :
  exists r w',
    chat_with_agent sample_env (ChatRequest.mk "uuid-i" "hello" None) sample_world
    = (inr r, w')
    /\ ChatResponse.session_id r = uuid4 sample_env (uuid_draws sample_world)
    /\ (forall k, (k < uuid_draws sample_world)%nat ->
                  uuid4 sample_env k <> ChatResponse.session_id r).
Proof.
  assert (Hrun : chat_with_agent sample_env (ChatRequest.mk "uuid-i" "hello" None)
                                 sample_world
                 = (inr (ChatResponse.mk "Namaste! hello" "uuid-ii"),
                    snd (chat_with_agent sample_env
                           (ChatRequest.mk "uuid-i" "hello" None) sample_world))).
  { vm_compute. reflexivity. }
  destruct (chat_session_id_resolution sample_env _ _ _ _
              sample_uuid4_never_repeats Hrun) as [_ Hfresh].
  destruct (Hfresh (or_introl eq_refl)) as (H1 & H2 & _).
  exact (ex_intro _ _ (ex_intro _ _ (conj Hrun (conj H1 H2)))).
Defined.

(** C7.  A chat request that succeeds appends exactly two documents to the
    conversations collection and touches no other collection: a "user"
    turn carrying the request's message and an "assistant" turn carrying
    the reply that is returned.  Both carry the session the answer names
    and the request's [agent_id]; their identifiers are two consecutive
    draws (so they differ) and their timestamps two consecutive clock
    reads. *)
Theorem chat_success_persists_two_turns
    (E : Env) (request : ChatRequest.t) (w w' : World) (r : ChatResponse.t) :
  never_repeats E ->
  chat_with_agent E request w = (inr r, w') ->
  exists u a : ConversationDoc.t,
    conversations (db w') = (conversations (db w) ++ [u; a])%list
    /\ agents (db w') = agents (db w)
    /\ llm_configs (db w') = llm_configs (db w)
    /\ ConversationDoc.role u = "user"
    /\ ConversationDoc.role a = "assistant"
    /\ ConversationDoc.session_id u = ChatResponse.session_id r
    /\ ConversationDoc.session_id a = ChatResponse.session_id r
    /\ ConversationDoc.agent_id u = ChatRequest.agent_id request
    /\ ConversationDoc.agent_id a = ChatRequest.agent_id request
    /\ ConversationDoc.content u = ChatRequest.message request
    /\ ConversationDoc.content a = ChatResponse.response r
    /\ ConversationDoc.id u <> ConversationDoc.id a
    /\ (exists n, ConversationDoc.id u = uuid4 E n
                  /\ ConversationDoc.id a = uuid4 E (S n))
    /\ (exists t, ConversationDoc.timestamp u = TimeStr (isoformat (utc_now E t))
                  /\ ConversationDoc.timestamp a
                     = TimeStr (isoformat (utc_now E (S t)))).
Proof.
  intros Hinj Hchat. rewrite chat_with_agent_eq in Hchat.
  destruct (Collection.find_one _ _) as [agent |]; [| discriminate].
  cbv zeta in Hchat.
  destruct (provider E _ _ _) as [reply | why]; [| discriminate].
  injection Hchat as <- <-.
  exists (user_turn E request w), (assistant_turn E request w reply).
  cbn. repeat split.
  - intros Heq. apply Hinj in Heq. lia.
  - exists (draws_after_session request w). split; reflexivity.
  - exists (clock_reads w). split; reflexivity.
Qed.

Lemma chat_success_persists_two_turns_witness :
  exists r w' u a,
    chat_with_agent sample_env (ChatRequest.mk "uuid-i" "hello" (Some "s1"))
                    sample_world = (inr r, w')
    /\ conversations (db w') = (conversations (db sample_world) ++ [u; a])%list
    /\ ConversationDoc.role u = "user"
    /\ ConversationDoc.role a = "assistant"
    /\ ConversationDoc.content a = ChatResponse.response r
    /\ ConversationDoc.id u <> ConversationDoc.id a.
Proof.
  assert (Hrun : chat_with_agent sample_env
                   (ChatRequest.mk "uuid-i" "hello" (Some "s1")) sample_world
                 = (inr (ChatResponse.mk "Namaste! hello" "s1"),
                    snd (chat_with_agent sample_env
                           (ChatRequest.mk "uuid-i" "hello" (Some "s1"))
                           sample_world))).
  { vm_compute. reflexivity. }
  destruct (chat_success_persists_two_turns sample_env _ _ _ _
              sample_uuid4_never_repeats Hrun)
    as (u & a & Hc & _ & _ & Hu & Ha & _ & _ & _ & _ & _ & Hr & Hid & _).
  exact (ex_intro _ _ (ex_intro _ _ (ex_intro _ u (ex_intro _ a
           (conj Hrun (conj Hc (conj Hu (conj Ha (conj Hr Hid))))))))).
Defined.

(** C9.  The chat path does not look at the [llm_configs] collection.  Run
    from two worlds that differ in that collection only, a chat request
    gets the same answer, leaves the same agents and conversations, leaves
    each world's [llm_configs] as it was, and makes the same provider
    calls; every call it makes is addressed to "gemini" /
    "gemini-2.0-flash". *)
Theorem chat_ignores_llm_configs
    (E : Env) (request : ChatRequest.t) (w1 w2 : World) :
  agents (db w1) = agents (db w2) ->
  conversations (db w1) = conversations (db w2) ->
  uuid_draws w1 = uuid_draws w2 ->
  clock_reads w1 = clock_reads w2 ->
  provider_calls w1 = provider_calls w2 ->
  let o1 := chat_with_agent E request w1 in
  let o2 := chat_with_agent E request w2 in
  fst o1 = fst o2
  /\ agents (db (snd o1)) = agents (db (snd o2))
  /\ conversations (db (snd o1)) = conversations (db (snd o2))
  /\ llm_configs (db (snd o1)) = llm_configs (db w1)
  /\ llm_configs (db (snd o2)) = llm_configs (db w2)
  /\ provider_calls (snd o1) = provider_calls (snd o2)
  /\ exists calls,
       provider_calls (snd o1) = (provider_calls w1 ++ calls)%list
       /\ Forall is_gemini_call calls.
Proof.
  destruct w1 as [[ag1 cf1 cv1] u1 c1 p1], w2 as [[ag2 cf2 cv2] u2 c2 p2].
  cbn [db agents conversations llm_configs uuid_draws clock_reads provider_calls].
  intros -> -> -> -> ->. cbv zeta.
  rewrite !chat_with_agent_eq.
  cbn [db agents conversations llm_configs uuid_draws clock_reads provider_calls].
  destruct (Collection.find_one _ ag2) as [agent |].
  - cbv zeta.
    change (gemini_call E request agent (mkWorld (mkDatabase ag2 cf1 cv2) u2 c2 p2))
      with (gemini_call E request agent (mkWorld (mkDatabase ag2 cf2 cv2) u2 c2 p2)).
    destruct (provider E _ _ _) as [reply | why]; cbn; repeat split;
      eexists; (split; [reflexivity |]); repeat constructor.
  - cbn. repeat split. exists []. split; [symmetry; apply app_nil_r | constructor].
Qed.

Lemma chat_ignores_llm_configs_witness :
  let w2 :=
    mkWorld (mkDatabase (agents (db sample_world))
               [LLMConfigDoc.mk "cfg-1" "openai" "sk-live" "gpt-4o"
                  (TimeStr "2025-01-15T10:30:07+00:00")]
               (conversations (db sample_world)))
            (uuid_draws sample_world) (clock_reads sample_world)
            (provider_calls sample_world) in
  let request := ChatRequest.mk "uuid-i" "hello" None in
  llm_configs (db sample_world) <> llm_configs (db w2)
  /\ fst (chat_with_agent sample_env request sample_world)
     = fst (chat_with_agent sample_env request w2)
  /\ conversations (db (snd (chat_with_agent sample_env request sample_world)))
     = conversations (db (snd (chat_with_agent sample_env request w2))).
Proof.
  intros w2 request.
  pose proof (chat_ignores_llm_configs sample_env request sample_world w2
                eq_refl eq_refl eq_refl eq_refl eq_refl) as H.
  cbv zeta in H. destruct H as (H1 & _ & H3 & _).
  split; [vm_compute; discriminate |]. split; assumption.
Defined.

(* ================================================================= *)
(** ** Which handlers write conversations *)

Create HintDb frame.

Lemma keeps_ret {A} (a : A) : keeps_conversations (ret a).
Proof. intros w. reflexivity. Qed.

Lemma keeps_raise {A} (e : Raised) : keeps_conversations (@raise A e).
Proof. intros w. reflexivity. Qed.

Lemma keeps_reads {A} (f : World -> A) : keeps_conversations (reads f).
Proof. intros w. reflexivity. Qed.

Lemma keeps_bind {A B} (c : M A) (k : A -> M B) :
  keeps_conversations c ->
  (forall a, keeps_conversations (k a)) ->
  keeps_conversations (bind c k).
Proof.
  intros Hc Hk w. unfold bind. specialize (Hc w).
  destruct (c w) as [[e | a] w1]; cbn in *; [exact Hc |].
  rewrite Hk. exact Hc.
Qed.

Lemma keeps_for_each {A B} (f : A -> M B) (l : list A) :
  (forall a, keeps_conversations (f a)) ->
  keeps_conversations (for_each f l).
Proof.
  intros Hf. induction l as [| a l IH]; cbn [for_each].
  - apply keeps_ret.
  - apply keeps_bind; [apply Hf | intros b].
    apply keeps_bind; [exact IH | intros bs; apply keeps_ret].
Qed.

Lemma keeps_set_agents f : keeps_conversations (set_agents f).
Proof. intros w. reflexivity. Qed.

Lemma keeps_set_llm_configs f : keeps_conversations (set_llm_configs f).
Proof. intros w. reflexivity. Qed.

Lemma keeps_delete_one_agent p : keeps_conversations (delete_one_agent p).
Proof. intros w. reflexivity. Qed.

Lemma keeps_delete_one_llm_config p :
  keeps_conversations (delete_one_llm_config p).
Proof. intros w. reflexivity. Qed.

Lemma keeps_uuid4_str E : keeps_conversations (uuid4_str E).
Proof. intros w. reflexivity. Qed.

Lemma keeps_datetime_now E : keeps_conversations (datetime_now E).
Proof. intros w. reflexivity. Qed.

Lemma keeps_rehydrate_time t : keeps_conversations (rehydrate_time t).
Proof.
  intros w. unfold rehydrate_time.
  destruct t as [s | d]; [destruct (fromisoformat s) |]; reflexivity.
Qed.

#[local] Hint Resolve keeps_ret keeps_raise keeps_reads keeps_set_agents
  keeps_set_llm_configs keeps_delete_one_agent keeps_delete_one_llm_config
  keeps_uuid4_str keeps_datetime_now keeps_rehydrate_time : frame.

Ltac frame :=
  repeat match goal with
         | |- keeps_conversations (bind _ _) => apply keeps_bind
         | |- keeps_conversations (for_each _ _) => apply keeps_for_each
         | |- keeps_conversations (match ?x with _ => _ end) => destruct x
         | |- forall _, _ => intro
         | |- _ => solve [auto with frame]
         end.

Lemma keeps_create_agent E d : keeps_conversations (create_agent E d).
Proof. unfold create_agent, new_Agent. frame. Qed.

Lemma keeps_get_agents : keeps_conversations get_agents.
Proof. unfold get_agents, rehydrate_agent. frame. Qed.

Lemma keeps_get_agent i : keeps_conversations (get_agent i).
Proof. unfold get_agent, rehydrate_agent, not_found. frame. Qed.

Lemma keeps_update_agent i u : keeps_conversations (update_agent i u).
Proof. unfold update_agent, rehydrate_agent, not_found. frame. Qed.

Lemma keeps_delete_agent i : keeps_conversations (delete_agent i).
Proof. unfold delete_agent, not_found. frame. Qed.

Lemma keeps_create_llm_config E d : keeps_conversations (create_llm_config E d).
Proof. unfold create_llm_config, new_LLMConfig. frame. Qed.

Lemma keeps_get_llm_configs : keeps_conversations get_llm_configs.
Proof. unfold get_llm_configs, rehydrate_llm_config. frame. Qed.

Lemma keeps_delete_llm_config i : keeps_conversations (delete_llm_config i).
Proof. unfold delete_llm_config, not_found. frame. Qed.

Lemma keeps_startup_event E : keeps_conversations (startup_event E).
Proof. unfold startup_event, new_Agent. frame. Qed.

Lemma appends_turns_refl (w w' : World) :
  conversations (db w') = conversations (db w) -> appends_turns w w'.
Proof.
  intros H. exists []. split; [| constructor].
  rewrite H. symmetry. apply app_nil_r.
Qed.

Lemma appends_turns_trans (w1 w2 w3 : World) :
  appends_turns w1 w2 -> appends_turns w2 w3 -> appends_turns w1 w3.
Proof.
  intros (a1 & H1 & F1) (a2 & H2 & F2). exists (a1 ++ a2)%list. split.
  - rewrite H2, H1. symmetry. apply app_assoc.
  - apply Forall_app. split; assumption.
Qed.

Lemma chat_appends_turns E request w :
  appends_turns w (snd (chat_with_agent E request w)).
Proof.
  rewrite chat_with_agent_eq.
  destruct (Collection.find_one _ _) as [agent |];
    [| apply appends_turns_refl; reflexivity].
  cbv zeta. destruct (provider E _ _ _) as [reply | why];
    [| apply appends_turns_refl; reflexivity].
  exists [user_turn E request w; assistant_turn E request w reply].
  split; [reflexivity |].
  constructor; [left; reflexivity |].
  constructor; [right; reflexivity | constructor].
Qed.

Lemma handle_appends_turns E w e : appends_turns w (handle E w e).
Proof.
  destruct e; cbn [handle];
    try (apply appends_turns_refl;
         first [ apply keeps_create_agent | apply keeps_get_agents
               | apply keeps_get_agent | apply keeps_update_agent
               | apply keeps_delete_agent | apply keeps_create_llm_config
               | apply keeps_get_llm_configs | apply keeps_delete_llm_config
               | apply keeps_startup_event ]).
  apply chat_appends_turns.
Qed.

(** C10.  Whatever sequence of requests and startup runs the process goes
    through, the conversations collection afterwards is the one before
    followed by the documents written meanwhile, and each of those has the
    role "user" or the role "assistant". *)
Theorem written_conversations_have_known_roles
    (E : Env) (es : list Event) (w : World) :
  exists added : list ConversationDoc.t,
    conversations (db (run E w es)) = (conversations (db w) ++ added)%list
    /\ Forall (fun m => ConversationDoc.role m = "user"
                        \/ ConversationDoc.role m = "assistant") added.
Proof.
  change (appends_turns w (run E w es)).
  revert w. induction es as [| e es IH]; intros w.
  - apply appends_turns_refl. reflexivity.
  - cbn [run fold_left]. eapply appends_turns_trans.
    + apply (handle_appends_turns E w e).
    + apply IH.
Qed.

(* ================================================================= *)
(** ** Agent registry *)

Lemma create_agent_eq (E : Env) (d : AgentCreate.t) (w : World) :
  create_agent E d w =
  let a := Agent.mk (uuid4 E (uuid_draws w)) (AgentCreate.name d)
             (AgentCreate.description d) (AgentCreate.system_prompt d)
             (AgentCreate.language d) true (utc_now E (clock_reads w)) in
  (inr a,
   mkWorld (mkDatabase (Collection.insert_one (agent_doc a) (agents (db w)))
              (llm_configs (db w)) (conversations (db w)))
           (S (uuid_draws w)) (S (clock_reads w)) (provider_calls w)).
Proof. reflexivity. Qed.

Lemma get_agent_eq (agent_id : string) (w : World) :
  get_agent agent_id w =
  (match Collection.find_one (id_is agent_id) (agents (db w)) with
   | None => inl (HTTPException 404 "Agent not found")
   | Some doc =>
       match record_of doc with
       | Some a => inr a
       | None => inl (time_error (AgentDoc.created_at doc))
       end
   end, w).
Proof.
  unfold get_agent, bind, reads, not_found, raise.
  destruct (Collection.find_one _ _) as [doc |]; [| reflexivity].
  apply rehydrate_agent_eq.
Qed.

Lemma get_agents_eq (w : World) :
  get_agents w
  = for_each rehydrate_agent (Collection.to_list 1000 (agents (db w))) w.
Proof. reflexivity. Qed.

Lemma record_of_agent_doc (a : Agent.t) :
  Datetime.valid (Agent.created_at a) = true -> record_of (agent_doc a) = Some a.
Proof.
  intros Hv. unfold record_of, agent_doc.
  cbn [AgentDoc.created_at AgentDoc.id AgentDoc.name AgentDoc.description
       AgentDoc.system_prompt AgentDoc.language AgentDoc.is_active].
  rewrite fromisoformat_isoformat by exact Hv. destruct a; reflexivity.
Qed.

Lemma fresh_id_not_stored (E : Env) (w : World) :
  never_repeats E -> ids_drawn E w ->
  forall d, In d (agents (db w)) -> id_is (uuid4 E (uuid_draws w)) d = false.
Proof.
  intros Hinj Hids d Hd. unfold ids_drawn in Hids.
  rewrite Forall_forall in Hids. destruct (Hids d Hd) as (k & Hk & Hid).
  unfold id_is. apply String.eqb_neq. rewrite Hid. intros Heq.
  apply Hinj in Heq. lia.
Qed.

(** C5.  Creating an agent and then getting it by the returned identifier
    answers the very record that the creation answered: the four submitted
    fields, [is_active = true], the identifier, and the creation time, which
    is stored as its ISO-8601 string and read back unchanged (to the
    microsecond, hence to the second). *)
Theorem create_then_get_roundtrip
    (E : Env) (agent_data : AgentCreate.t) (w : World) :
  never_repeats E ->
  clock_valid E ->
  ids_drawn E w ->
  exists (a : Agent.t) (w1 : World),
    create_agent E agent_data w = (inr a, w1)
    /\ get_agent (Agent.id a) w1 = (inr a, w1)
    /\ Agent.name a = AgentCreate.name agent_data
    /\ Agent.description a = AgentCreate.description agent_data
    /\ Agent.system_prompt a = AgentCreate.system_prompt agent_data
    /\ Agent.language a = AgentCreate.language agent_data
    /\ Agent.is_active a = true
    /\ Collection.find_one (id_is (Agent.id a)) (agents (db w1))
       = Some (agent_doc a)
    /\ AgentDoc.created_at (agent_doc a) = TimeStr (isoformat (Agent.created_at a))
    /\ fromisoformat (isoformat (Agent.created_at a)) = Some (Agent.created_at a)
    /\ forall got w2, get_agent (Agent.id a) w1 = (inr got, w2) ->
         Datetime.to_second (Agent.created_at got)
         = Datetime.to_second (Agent.created_at a).
Proof.
  intros Hinj Hclock Hids.
  rewrite create_agent_eq. cbv zeta.
  set (a := Agent.mk _ _ _ _ _ _ _).
  set (w1 := mkWorld _ _ _ _).
  assert (Hfind : Collection.find_one (id_is (Agent.id a)) (agents (db w1))
                  = Some (agent_doc a)).
  { subst w1. cbn [db agents]. apply find_one_insert_one_fresh.
    - apply (fresh_id_not_stored E w Hinj Hids).
    - unfold id_is. apply String.eqb_refl. }
  assert (Hrec : record_of (agent_doc a) = Some a).
  { apply record_of_agent_doc. apply Hclock. }
  assert (Hget : get_agent (Agent.id a) w1 = (inr a, w1)).
  { rewrite get_agent_eq, Hfind, Hrec. reflexivity. }
  exists a, w1. repeat split; try reflexivity; try assumption.
  - apply fromisoformat_isoformat. apply Hclock.
  - intros got w2 Hgot. rewrite Hget in Hgot. injection Hgot as <- _. reflexivity.
Qed.

Lemma sample_clock_valid : clock_valid sample_env.
Proof.
  intros t. cbn [utc_now sample_env]. unfold sample_now, Datetime.valid.
  cbn [Datetime.year Datetime.month Datetime.day Datetime.hour Datetime.minute
       Datetime.second Datetime.microsecond].
  pose proof (Z.mod_pos_bound (Z.of_nat t) 1000000 ltac:(lia)) as H.
  assert (Hu : Datetime.between 0 (Z.of_nat t mod 1000000) 999999 = true).
  { unfold Datetime.between. apply andb_true_intro. split; apply Z.leb_le; lia. }
  rewrite Hu. reflexivity.
Qed.

Lemma sample_world_ids_drawn : ids_drawn sample_env sample_world.
Proof.
  unfold ids_drawn. change (uuid_draws sample_world) with 2%nat.
  change (agents (db sample_world))
    with [agent_doc (Agent.mk "uuid-" ORDER_AGENT_NAME
                       "Hindi voice bot for taking customer orders"
                       ORDER_AGENT_PROMPT "hindi" true (sample_now 0));
          agent_doc (Agent.mk "uuid-i" "Test Agent"
                       "Test agent for automated testing"
                       "You are a test agent." "english" true (sample_now 1))].
  constructor; [exists 0%nat | constructor; [exists 1%nat | constructor]];
    split; try lia; reflexivity.
Qed.

Lemma create_then_get_roundtrip_witness :
  exists a w1,
    create_agent sample_env test_agent_data sample_world = (inr a, w1)
    /\ get_agent (Agent.id a) w1 = (inr a, w1)
    /\ Agent.language a = "english".
Proof.
  destruct (create_then_get_roundtrip sample_env test_agent_data sample_world
              sample_uuid4_never_repeats sample_clock_valid sample_world_ids_drawn)
    as (a & w1 & Hc & Hg & _ & _ & _ & Hl & _).
  exact (ex_intro _ a (ex_intro _ w1 (conj Hc (conj Hg Hl)))).
Defined.

Lemma get_agents_readable (w : World) :
  Forall readable (agents (db w)) ->
  exists l,
    get_agents w = (inr l, w)
    /\ map Some l = map record_of (firstn 1000 (agents (db w))).
Proof.
  intros Hr. rewrite get_agents_eq. unfold Collection.to_list.
  apply for_each_rehydrate_readable.
  rewrite Forall_forall in *. intros d Hd. apply Hr.
  rewrite <- (firstn_skipn 1000 (agents (db w))). apply in_or_app. left. exact Hd.
Qed.

Lemma crowd_doc_readable (k : nat) : readable (crowd_doc k).
Proof. unfold readable. vm_compute. discriminate. Qed.

Lemma crowded_world_readable : Forall readable (agents (db crowded_world)).
Proof.
  apply Forall_forall. intros d Hd. cbn [crowded_world db agents] in Hd.
  apply in_map_iff in Hd. destruct Hd as (k & <- & _). apply crowd_doc_readable.
Qed.

Lemma for_each_rehydrate_length (docs : list AgentDoc.t) (w w' : World)
    (l : list Agent.t) :
  for_each rehydrate_agent docs w = (inr l, w') ->
  List.length l = List.length docs.
Proof.
  revert l w'. induction docs as [| d docs IH]; intros l w' H.
  - cbn in H. injection H as <- _. reflexivity.
  - cbn [for_each] in H. unfold bind at 1 in H. rewrite rehydrate_agent_eq in H.
    destruct (record_of d) as [a |]; [| discriminate].
    unfold bind in H.
    destruct (for_each rehydrate_agent docs w) as [[e | bs] w1] eqn:Hrest;
      [discriminate |].
    cbn in H. injection H as <- _. cbn [List.length]. f_equal.
    apply (IH bs w1 eq_refl).
Qed.

(** C6.  The handler that is documented as "Get all agents" does not
    return all of them once more than 1000 are stored: it reads with
    [find({}).to_list(1000)], so no successful List has more than 1000
    records.  On a store of 1001 readable agents List succeeds with 1000
    records, and the agent stored last, a stored agent, is in none of
    them. *)
Theorem get_agents_omits_agents_beyond_1000 :
  (forall (w w' : World) (l : list Agent.t),
      get_agents w = (inr l, w') -> (List.length l <= 1000)%nat)
  /\ List.length (agents (db crowded_world)) = 1001%nat
  /\ In (crowd_doc 1000) (agents (db crowded_world))
  /\ exists l : list Agent.t,
       get_agents crowded_world = (inr l, crowded_world)
       /\ List.length l = 1000%nat
       /\ ~ In (AgentDoc.id (crowd_doc 1000)) (map Agent.id l).
Proof.
  assert (Hbound : forall (w w' : World) (l : list Agent.t),
             get_agents w = (inr l, w') -> (List.length l <= 1000)%nat).
  { intros w w' l H. rewrite get_agents_eq in H.
    rewrite (for_each_rehydrate_length _ _ _ _ H).
    unfold Collection.to_list. rewrite length_firstn. lia. }
  split; [exact Hbound |].
  assert (Hlen : List.length (agents (db crowded_world)) = 1001%nat).
  { cbn [crowded_world db agents]. rewrite length_map, length_seq. reflexivity. }
  split; [exact Hlen |]. split.
  - cbn [crowded_world db agents]. apply in_map. apply in_seq. lia.
  - destruct (get_agents_readable crowded_world crowded_world_readable)
      as (l & Hget & Hmap).
    exists l. split; [exact Hget |]. split.
    + apply (f_equal (@List.length _)) in Hmap.
      rewrite !length_map, length_firstn, Hlen in Hmap. lia.
    + intros Hin.
      assert (Hb : existsb (String.eqb (AgentDoc.id (crowd_doc 1000)))
                           (map Agent.id l) = true).
      { apply existsb_exists. eexists.
        split; [exact Hin | apply String.eqb_refl]. }
      assert (Hl : l = match fst (get_agents crowded_world) with
                       | inr l0 => l0
                       | inl _ => []
                       end).
      { rewrite Hget. reflexivity. }
      rewrite Hl in Hb. vm_compute in Hb. discriminate.
Qed.

Lemma sample_world_readable : Forall readable (agents (db sample_world)).
Proof.
  apply Forall_forall. intros d Hd. vm_compute in Hd.
  destruct Hd as [<- | [<- | []]]; unfold readable; vm_compute; discriminate.
Qed.

(* ================================================================= *)
(** ** Bootstrap *)

Lemma startup_event_eq (E : Env) (w : World) :
  startup_event E w =
  match Collection.find_one (name_is ORDER_AGENT_NAME) (agents (db w)) with
  | Some _ => (inr tt, w)
  | None =>
      let a := Agent.mk (uuid4 E (uuid_draws w)) ORDER_AGENT_NAME
                 "Hindi voice bot for taking customer orders"
                 ORDER_AGENT_PROMPT "hindi" true (utc_now E (clock_reads w)) in
      (inr tt,
       mkWorld (mkDatabase (Collection.insert_one (agent_doc a) (agents (db w)))
                  (llm_configs (db w)) (conversations (db w)))
               (S (uuid_draws w)) (S (clock_reads w)) (provider_calls w))
  end.
Proof.
  unfold startup_event, bind at 1, reads.
  destruct (Collection.find_one _ _); reflexivity.
Qed.

Lemma find_one_exists {D} (p : D -> bool) (c : list D) (d : D) :
  In d c -> p d = true -> exists d', Collection.find_one p c = Some d'.
Proof.
  intros Hd Hp. unfold Collection.find_one.
  destruct (find p c) as [d' |] eqn:Hf; [exists d'; reflexivity |].
  rewrite (find_none p c Hf d Hd) in Hp. discriminate.
Qed.

(** C8.  Started on an empty agents collection, the startup routine leaves
    exactly one agent, named "Order Taking Agent"; run again on the
    result, it changes nothing.  The routine looks for the name only: it
    changes nothing in any world that stores an agent of that name, and
    appends the default agent to any world that stores none. *)
Theorem startup_creates_default_agent_once (E : Env) (w : World) :
  agents (db w) = [] ->
  exists (a : Agent.t) (w1 : World),
    startup_event E w = (inr tt, w1)
    /\ agents (db w1) = [agent_doc a]
    /\ Agent.name a = "Order Taking Agent"
    /\ List.length (filter (name_is "Order Taking Agent") (agents (db w1))) = 1%nat
    /\ startup_event E w1 = (inr tt, w1)
    /\ (forall w0 d, In d (agents (db w0)) ->
                     AgentDoc.name d = "Order Taking Agent" ->
                     startup_event E w0 = (inr tt, w0))
    /\ (forall w0, (forall d, In d (agents (db w0)) ->
                              AgentDoc.name d <> "Order Taking Agent") ->
                   exists a0, agents (db (snd (startup_event E w0)))
                              = (agents (db w0) ++ [agent_doc a0])%list
                              /\ Agent.name a0 = "Order Taking Agent").
Proof.
  intros Hempty.
  assert (Hnamed : forall w0 d, In d (agents (db w0)) ->
                     AgentDoc.name d = "Order Taking Agent" ->
                     startup_event E w0 = (inr tt, w0)).
  { intros w0 d Hd Hn. rewrite startup_event_eq.
    destruct (find_one_exists (name_is ORDER_AGENT_NAME) _ d Hd) as (d' & ->);
      [| reflexivity].
    unfold name_is. rewrite Hn. reflexivity. }
  rewrite startup_event_eq, Hempty. cbn [Collection.find_one find]. cbv zeta.
  set (a := Agent.mk _ _ _ _ _ _ _).
  exists a. eexists. split; [reflexivity |].
  cbn [db agents Collection.insert_one app].
  split; [reflexivity |]. split; [reflexivity |]. split; [reflexivity |].
  split; [| split; [exact Hnamed |]].
  - apply (Hnamed _ (agent_doc a)); [left |]; reflexivity.
  - intros w0 Hnone. rewrite startup_event_eq, find_one_none.
    + cbv zeta. eexists. split; reflexivity.
    + intros d Hd. unfold name_is. apply String.eqb_neq. apply Hnone. exact Hd.
Qed.

Lemma startup_creates_default_agent_once_witness :
  exists a w1,
    startup_event sample_env initial_world = (inr tt, w1)
    /\ agents (db w1) = [agent_doc a]
    /\ Agent.name a = "Order Taking Agent"
    /\ startup_event sample_env w1 = (inr tt, w1).
Proof.
  destruct (startup_creates_default_agent_once sample_env initial_world eq_refl)
    as (a & w1 & H1 & H2 & H3 & _ & H5 & _).
  exact (ex_intro _ a (ex_intro _ w1 (conj H1 (conj H2 (conj H3 H5))))).
Defined.

(* ================================================================= *)
(** ** Partial update *)

Lemma apply_set_update_data (u : AgentUpdate.t) (d : AgentDoc.t) :
  apply_set (update_data u) d = merged u d.
Proof.
  destruct d as [i n de sp la ac ca].
  destruct u as [[un |] [ud |] [us |] [ul |] [ua |]]; reflexivity.
Qed.

Lemma update_data_nil (u : AgentUpdate.t) :
  update_data u = [] <-> u = no_fields.
Proof.
  split.
  - destruct u as [[un |] [ud |] [us |] [ul |] [ua |]]; cbn;
      intros H; try discriminate H; reflexivity.
  - intros ->. reflexivity.
Qed.

Lemma merged_no_fields (d : AgentDoc.t) : merged no_fields d = d.
Proof. destruct d; reflexivity. Qed.

Lemma update_one_ext {D} (p : D -> bool) (f g : D -> D) (c : list D) :
  (forall d, f d = g d) -> Collection.update_one p f c = Collection.update_one p g c.
Proof.
  intros H. induction c as [| d c IH]; cbn; [reflexivity |].
  destruct (p d); [rewrite H | rewrite IH]; reflexivity.
Qed.

Lemma update_one_same {D} (p : D -> bool) (f : D -> D) (c : list D) :
  (forall d, f d = d) -> Collection.update_one p f c = c.
Proof.
  intros H. induction c as [| d c IH]; cbn; [reflexivity |].
  destruct (p d); [rewrite H | rewrite IH]; reflexivity.
Qed.

Lemma update_agent_eq (agent_id : string) (u : AgentUpdate.t) (w : World) :
  update_agent agent_id u w =
  match Collection.find_one (id_is agent_id) (agents (db w)) with
  | None => (inl (HTTPException 404 "Agent not found"), w)
  | Some _ =>
      let w' :=
        match update_data u with
        | [] => w
        | _ :: _ =>
            mkWorld
              (mkDatabase
                 (Collection.update_one (id_is agent_id) (merged u) (agents (db w)))
                 (llm_configs (db w)) (conversations (db w)))
              (uuid_draws w) (clock_reads w) (provider_calls w)
        end in
      (match Collection.find_one (id_is agent_id) (agents (db w')) with
       | Some doc =>
           match record_of doc with
           | Some a => inr a
           | None => inl (time_error (AgentDoc.created_at doc))
           end
       | None => inl (TypeError "'NoneType' object is not subscriptable")
       end, w')
  end.
Proof.
  unfold update_agent, bind at 1, reads, not_found, raise.
  destruct (Collection.find_one _ _) as [doc |]; [| reflexivity].
  cbv zeta.
  destruct (update_data u) as [| f fs] eqn:Hu.
  - unfold bind, ret.
    destruct (Collection.find_one _ _) as [doc' |]; [| reflexivity].
    apply rehydrate_agent_eq.
  - unfold bind, set_agents. rewrite <- Hu.
    rewrite (update_one_ext _ (apply_set (update_data u)) (merged u))
      by (intros d; apply apply_set_update_data).
    cbn [db agents].
    destruct (Collection.find_one _ (Collection.update_one _ _ _)) as [doc' |];
      [| reflexivity].
    apply rehydrate_agent_eq.
Qed.

Lemma record_of_merged (u : AgentUpdate.t) (d : AgentDoc.t) (a : Agent.t) :
  record_of d = Some a ->
  record_of (merged u d)
  = Some (Agent.mk (Agent.id a)
            (or_default (AgentUpdate.name u) (Agent.name a))
            (or_default (AgentUpdate.description u) (Agent.description a))
            (or_default (AgentUpdate.system_prompt u) (Agent.system_prompt a))
            (or_default (AgentUpdate.language u) (Agent.language a))
            (or_default (AgentUpdate.is_active u) (Agent.is_active a))
            (Agent.created_at a)).
Proof.
  unfold record_of, merged.
  cbn [AgentDoc.created_at AgentDoc.id AgentDoc.name AgentDoc.description
       AgentDoc.system_prompt AgentDoc.language AgentDoc.is_active].
  destruct (AgentDoc.created_at d) as [s | ts].
  - destruct (fromisoformat s); [| discriminate].
    intros H. injection H as <-. reflexivity.
  - intros H. injection H as <-. reflexivity.
Qed.

(** C4.  Update of a stored agent answers the record the agent had with
    each non-null field of the body written over it; the identifier, the
    creation time and every field the body leaves null are the ones the
    agent had.  In the store the first document of that identifier is
    replaced by its merge with the body, and no other document and no other
    collection changes.  A body whose fields are all null changes nothing
    and answers the agent's record.  Update of an identifier that no stored
    agent has is answered with 404 "Agent not found" and changes nothing. *)
Theorem update_agent_merges_non_null_fields
    (agent_id : string) (u : AgentUpdate.t) (w : World) :
  (forall (doc : AgentDoc.t) (before : Agent.t),
      Collection.find_one (id_is agent_id) (agents (db w)) = Some doc ->
      record_of doc = Some before ->
      exists w',
        update_agent agent_id u w
        = (inr (Agent.mk (Agent.id before)
                  (or_default (AgentUpdate.name u) (Agent.name before))
                  (or_default (AgentUpdate.description u) (Agent.description before))
                  (or_default (AgentUpdate.system_prompt u)
                              (Agent.system_prompt before))
                  (or_default (AgentUpdate.language u) (Agent.language before))
                  (or_default (AgentUpdate.is_active u) (Agent.is_active before))
                  (Agent.created_at before)), w')
        /\ agents (db w')
           = Collection.update_one (id_is agent_id) (merged u) (agents (db w))
        /\ Collection.find_one (id_is agent_id) (agents (db w')) = Some (merged u doc)
        /\ AgentDoc.id (merged u doc) = AgentDoc.id doc
        /\ AgentDoc.created_at (merged u doc) = AgentDoc.created_at doc
        /\ llm_configs (db w') = llm_configs (db w)
        /\ conversations (db w') = conversations (db w)
        /\ (u = no_fields -> w' = w /\ update_agent agent_id u w = (inr before, w)))
  /\ ((forall d, In d (agents (db w)) -> AgentDoc.id d <> agent_id) ->
      update_agent agent_id u w = (inl (HTTPException 404 "Agent not found"), w)).
Proof.
  split.
  - intros doc before Hfind Hrec.
    assert (Hid : id_is agent_id (merged u doc) = true).
    { destruct (find_one_some _ _ _ Hfind) as [_ Hp]. exact Hp. }
    assert (Hnull : update_agent agent_id no_fields w = (inr before, w)).
    { rewrite update_agent_eq, Hfind. cbv zeta.
      change (update_data no_fields) with (@nil SetField). cbv iota.
      rewrite Hfind, Hrec. reflexivity. }
    destruct (update_data u) as [| f fs] eqn:Hu.
    + apply update_data_nil in Hu. subst u. exists w.
      rewrite merged_no_fields.
      rewrite update_one_same by apply merged_no_fields.
      split; [rewrite Hnull; destruct before; reflexivity |].
      repeat split; reflexivity || assumption.
    + exists (mkWorld
                (mkDatabase
                   (Collection.update_one (id_is agent_id) (merged u) (agents (db w)))
                   (llm_configs (db w)) (conversations (db w)))
                (uuid_draws w) (clock_reads w) (provider_calls w)).
      cbn [db agents llm_configs conversations].
      pose proof (find_one_update_one _ (merged u) _ _ Hfind Hid) as Hnew.
      split.
      { rewrite update_agent_eq, Hfind. cbv zeta. rewrite Hu.
        cbn [db agents]. rewrite Hnew, (record_of_merged u doc before Hrec).
        reflexivity. }
      split; [reflexivity |]. split; [exact Hnew |].
      split; [reflexivity |]. split; [reflexivity |].
      split; [reflexivity |]. split; [reflexivity |].
      intros ->. discriminate Hu.
  - intros Hnone. rewrite update_agent_eq, find_one_none; [reflexivity |].
    intros d Hd. unfold id_is. apply String.eqb_neq. apply Hnone. exact Hd.
Qed.

Lemma update_agent_merges_non_null_fields_witness :
  let body := AgentUpdate.mk None (Some "Updated test agent description")
                             None None None in
  (exists w',
      update_agent "uuid-i" body sample_world
      = (inr (Agent.mk "uuid-i" "Test Agent" "Updated test agent description"
                "You are a test agent." "english" true (sample_now 1)), w'))
  /\ update_agent "nobody" body sample_world
     = (inl (HTTPException 404 "Agent not found"), sample_world).
Proof.
  intros body.
  destruct (update_agent_merges_non_null_fields "uuid-i" body sample_world)
    as [Hsome _].
  destruct (update_agent_merges_non_null_fields "nobody" body sample_world)
    as [_ Hnone].
  split.
  - destruct (Hsome
                (AgentDoc.mk "uuid-i" "Test Agent" "Test agent for automated testing"
                   "You are a test agent." "english" true
                   (TimeStr "2025-01-15T10:30:07.000001+00:00"))
                (Agent.mk "uuid-i" "Test Agent" "Test agent for automated testing"
                   "You are a test agent." "english" true (sample_now 1))
                eq_refl eq_refl) as (w' & Hu & _).
    exists w'. exact Hu.
  - apply Hnone. intros d Hd. vm_compute in Hd.
    destruct Hd as [<- | [<- | []]]; discriminate.
Defined.

(* ================================================================= *)
(** ** Invariants of the store *)

Lemma for_each_world {A B} (f : A -> M B) (l : list A) (w : World) :
  (forall a w0, snd (f a w0) = w0) -> snd (for_each f l w) = w.
Proof.
  intros Hf. induction l as [| a l IH]; [reflexivity |].
  cbn [for_each]. unfold bind at 1. specialize (Hf a w).
  destruct (f a w) as [[e | b] w1]; cbn in Hf; subst w1; [reflexivity |].
  unfold bind. destruct (for_each f l w) as [[e | bs] w1];
    cbn in IH; subst w1; reflexivity.
Qed.

Lemma rehydrate_llm_config_world (d : LLMConfigDoc.t) (w : World) :
  snd (rehydrate_llm_config d w) = w.
Proof.
  unfold rehydrate_llm_config, rehydrate_time, bind.
  destruct (LLMConfigDoc.created_at d) as [s | ts]; [| reflexivity].
  destruct (fromisoformat s); reflexivity.
Qed.

Lemma delete_one_incl {D} (p : D -> bool) (c : list D) (x : D) :
  In x (fst (Collection.delete_one p c)) -> In x c.
Proof.
  induction c as [| d c IH]; cbn; [tauto |].
  destruct (p d); [intros H; right; exact H |].
  destruct (Collection.delete_one p c) as [r n]. cbn in *.
  intros [H | H]; [left; exact H | right; apply IH; exact H].
Qed.

Lemma update_one_in {D} (p : D -> bool) (f : D -> D) (c : list D) (x : D) :
  In x (Collection.update_one p f c) ->
  In x c \/ exists d, In d c /\ x = f d.
Proof.
  induction c as [| d c IH]; cbn; [tauto |].
  destruct (p d); cbn.
  - intros [H | H]; [right; exists d; split; [left; reflexivity | symmetry; exact H]
                    | left; right; exact H].
  - intros [H | H]; [left; left; exact H |].
    destruct (IH H) as [Hc | (d0 & Hd0 & Hx)].
    + left. right. exact Hc.
    + right. exists d0. split; [right; exact Hd0 | exact Hx].
Qed.

Lemma descends_same_agents (E : Env) (w w' : World) :
  agents (db w') = agents (db w) ->
  (uuid_draws w <= uuid_draws w')%nat ->
  descends E w w'.
Proof.
  intros Ha Hu. split; [exact Hu |].
  intros d' Hd. left. exists d'. rewrite Ha in Hd. repeat split. exact Hd.
Qed.

Lemma descends_insert_new (E : Env) (w : World) (a : Agent.t) l c p :
  Agent.id a = uuid4 E (uuid_draws w) ->
  Agent.created_at a = utc_now E (clock_reads w) ->
  descends E w
    (mkWorld (mkDatabase (Collection.insert_one (agent_doc a) (agents (db w))) l c)
             (S (uuid_draws w)) (S (clock_reads w)) p).
Proof.
  intros Hid Hts. split; [cbn; lia |].
  cbn [db agents uuid_draws]. unfold Collection.insert_one.
  intros d' Hd. apply in_app_or in Hd. destruct Hd as [Hd | [<- | []]].
  - left. exists d'. repeat split. exact Hd.
  - right. exists (uuid_draws w), (clock_reads w). cbn.
    rewrite Hid, Hts. repeat split; lia.
Qed.

Lemma handle_descends (E : Env) (w : World) (e : Event) :
  descends E w (handle E w e).
Proof.
  destruct e as [d | | i | i u | i | d | | i | r |]; cbn [handle].
  - rewrite create_agent_eq. cbv zeta. cbn [snd].
    apply descends_insert_new; reflexivity.
  - rewrite get_agents_eq, for_each_rehydrate_world.
    apply descends_same_agents; [reflexivity | lia].
  - rewrite get_agent_eq. apply descends_same_agents; [reflexivity | cbn; lia].
  - rewrite update_agent_eq.
    destruct (Collection.find_one _ _) as [doc |];
      [| apply descends_same_agents; [reflexivity | cbn; lia]].
    cbv zeta. cbn [snd].
    destruct (update_data u);
      [apply descends_same_agents; [reflexivity | lia] |].
    split; [cbn; lia |]. cbn [db agents]. intros d' Hd. left.
    apply update_one_in in Hd. destruct Hd as [Hd | (d0 & Hd0 & ->)].
    + exists d'. repeat split. exact Hd.
    + exists d0. repeat split. exact Hd0.
  - unfold delete_agent, bind, delete_one_agent, not_found, raise, ret.
    assert (H : forall x, descends E w
                  (mkWorld (mkDatabase
                              (fst (Collection.delete_one (id_is i) (agents (db w))))
                              (llm_configs (db w)) (conversations (db w)))
                           (uuid_draws w) (clock_reads w) x)).
    { intros x. split; [cbn; lia |]. cbn [db agents]. intros d' Hd. left.
      exists d'. repeat split. apply (delete_one_incl _ _ _ Hd). }
    destruct (snd (Collection.delete_one (id_is i) (agents (db w))) =? 0);
      cbn [snd]; apply H.
  - apply descends_same_agents; [reflexivity | cbn; lia].
  - unfold get_llm_configs, bind, reads.
    rewrite for_each_world by apply rehydrate_llm_config_world.
    apply descends_same_agents; [reflexivity | lia].
  - unfold delete_llm_config, bind, delete_one_llm_config, not_found, raise, ret.
    destruct (snd (Collection.delete_one _ _) =? 0); cbn [snd];
      apply descends_same_agents; (reflexivity || (cbn; lia)).
  - rewrite chat_with_agent_eq.
    destruct (Collection.find_one _ _) as [agent |];
      [| apply descends_same_agents; [reflexivity | cbn; lia]].
    cbv zeta.
    assert (Hn : (uuid_draws w <= draws_after_session r w)%nat).
    { unfold draws_after_session. destruct (truthy _); lia. }
    destruct (provider E _ _ _); cbn [snd];
      apply descends_same_agents; (reflexivity || (cbn; lia)).
  - rewrite startup_event_eq.
    destruct (Collection.find_one _ _);
      [apply descends_same_agents; [reflexivity | cbn; lia] |].
    cbv zeta. cbn [snd]. apply descends_insert_new; reflexivity.
Qed.

(** Stored agent identifiers stay among the identifiers drawn. *)
Lemma handle_keeps_ids_drawn (E : Env) (w : World) (e : Event) :
  ids_drawn E w -> ids_drawn E (handle E w e).
Proof.
  unfold ids_drawn. rewrite !Forall_forall. intros Hw d' Hd.
  destruct (handle_descends E w e) as [Hle Hfrom].
  destruct (Hfrom d' Hd) as [(d & Hin & Hid & _) | (k & t & Hk & Hid & _)].
  - destruct (Hw d Hin) as (k & Hk & Hdk). exists k. split; [lia | congruence].
  - exists k. split; [lia | exact Hid].
Qed.

(** Stored creation times stay readable. *)
Lemma handle_keeps_readable (E : Env) (w : World) (e : Event) :
  clock_valid E ->
  Forall readable (agents (db w)) ->
  Forall readable (agents (db (handle E w e))).
Proof.
  rewrite !Forall_forall. intros Hclock Hw d' Hd.
  destruct (handle_descends E w e) as [_ Hfrom].
  destruct (Hfrom d' Hd) as [(d & Hin & _ & Hts) | (k & t & _ & _ & Hts)].
  - specialize (Hw d Hin). unfold readable, record_of in *. rewrite Hts.
    destruct (AgentDoc.created_at d) as [s | ts]; [| discriminate].
    destruct (fromisoformat s); [discriminate | congruence].
  - unfold readable, record_of. rewrite Hts.
    rewrite fromisoformat_isoformat by apply Hclock. discriminate.
Qed.

(** Both hold in every world the process reaches from an empty store. *)
Lemma reachable_worlds_well_formed (E : Env) (es : list Event) :
  clock_valid E ->
  ids_drawn E (run E initial_world es)
  /\ Forall readable (agents (db (run E initial_world es))).
Proof.
  intros Hclock.
  assert (H : forall w, ids_drawn E w /\ Forall readable (agents (db w)) ->
                        ids_drawn E (run E w es)
                        /\ Forall readable (agents (db (run E w es)))).
  { induction es as [| e es IH]; intros w [Hi Hr]; [split; assumption |].
    cbn [run fold_left]. apply IH. split.
    - apply handle_keeps_ids_drawn. exact Hi.
    - apply handle_keeps_readable; assumption. }
  apply H. split; constructor.
Qed.

(* ================================================================= *)
(** ** Delete *)

Lemma delete_one_none {D} (p : D -> bool) (c : list D) :
  (forall d, In d c -> p d = false) -> Collection.delete_one p c = (c, 0).
Proof.
  induction c as [| d c IH]; intros H; cbn; [reflexivity |].
  rewrite (H d (or_introl eq_refl)).
  rewrite IH; [reflexivity |]. intros x Hx. apply H. right. exact Hx.
Qed.

Lemma delete_one_some {D} (p : D -> bool) (c : list D) (d : D) :
  Collection.find_one p c = Some d ->
  exists l1 l2,
    c = (l1 ++ d :: l2)%list
    /\ (forall x, In x l1 -> p x = false)
    /\ Collection.delete_one p c = ((l1 ++ l2)%list, 1).
Proof.
  unfold Collection.find_one.
  induction c as [| x c IH]; cbn; intros Hf; [discriminate |].
  destruct (p x) eqn:Hx.
  - injection Hf as ->. exists [], c. repeat split. intros y [].
  - destruct (IH Hf) as (l1 & l2 & Hc & Hl1 & Hdel).
    exists (x :: l1), l2. rewrite Hdel. subst c. repeat split.
    intros y [<- | Hy]; [exact Hx | apply Hl1; exact Hy].
Qed.

Lemma delete_agent_eq (agent_id : string) (w : World) :
  delete_agent agent_id w =
  let r := Collection.delete_one (id_is agent_id) (agents (db w)) in
  (if snd r =? 0 then inl (HTTPException 404 "Agent not found")
   else inr "Agent deleted successfully",
   mkWorld (mkDatabase (fst r) (llm_configs (db w)) (conversations (db w)))
           (uuid_draws w) (clock_reads w) (provider_calls w)).
Proof.
  unfold delete_agent, bind, delete_one_agent, not_found, raise, ret. cbv zeta.
  destruct (snd _ =? 0); reflexivity.
Qed.

Lemma world_eta (w : World) :
  mkWorld (mkDatabase (agents (db w)) (llm_configs (db w)) (conversations (db w)))
          (uuid_draws w) (clock_reads w) (provider_calls w) = w.
Proof. destruct w as [[a l c] u t p]. reflexivity. Qed.

Lemma no_agent_has_id (agent_id : string) (c : list AgentDoc.t) :
  (forall d, In d c -> AgentDoc.id d <> agent_id) ->
  forall d, In d c -> id_is agent_id d = false.
Proof.
  intros H d Hd. unfold id_is. apply String.eqb_neq. apply H. exact Hd.
Qed.

(** X1.  Delete of an identifier that no stored agent has is answered with
    404 "Agent not found" and leaves the world as it was. *)
Theorem delete_unknown_agent_not_found (agent_id : string) (w : World) :
  (forall d, In d (agents (db w)) -> AgentDoc.id d <> agent_id) ->
  delete_agent agent_id w = (inl (HTTPException 404 "Agent not found"), w).
Proof.
  intros Hno. rewrite delete_agent_eq.
  rewrite (delete_one_none _ _ (no_agent_has_id _ _ Hno)).
  cbn [fst snd Z.eqb]. rewrite world_eta. reflexivity.
Qed.

Lemma delete_unknown_agent_not_found_witness :
  delete_agent "nobody" sample_world
  = (inl (HTTPException 404 "Agent not found"), sample_world).
Proof.
  apply delete_unknown_agent_not_found.
  intros d Hd. vm_compute in Hd.
  destruct Hd as [<- | [<- | []]]; discriminate.
Defined.

(** X2.  Delete of a stored agent answers the success message and removes
    the first document of that identifier and nothing else: the documents
    before and after it stay in order, and the configurations and the
    conversations, those of the deleted agent included, are untouched. *)
Theorem delete_agent_removes_first_match
    (agent_id : string) (w : World) (doc : AgentDoc.t) :
  Collection.find_one (id_is agent_id) (agents (db w)) = Some doc ->
  exists (l1 l2 : list AgentDoc.t) (w' : World),
    agents (db w) = (l1 ++ doc :: l2)%list
    /\ (forall x, In x l1 -> AgentDoc.id x <> agent_id)
    /\ delete_agent agent_id w = (inr "Agent deleted successfully", w')
    /\ agents (db w') = (l1 ++ l2)%list
    /\ llm_configs (db w') = llm_configs (db w)
    /\ conversations (db w') = conversations (db w).
Proof.
  intros Hfind.
  destruct (delete_one_some _ _ _ Hfind) as (l1 & l2 & Hc & Hl1 & Hdel).
  exists l1, l2. eexists. split; [exact Hc |]. split.
  - intros x Hx. apply String.eqb_neq. apply (Hl1 x Hx).
  - rewrite delete_agent_eq, Hdel. cbn. repeat split.
Qed.

Lemma delete_agent_removes_first_match_witness :
  exists w',
    delete_agent "uuid-i" sample_world = (inr "Agent deleted successfully", w')
    /\ List.length (agents (db w')) = 1%nat.
Proof.
  destruct (delete_agent_removes_first_match "uuid-i" sample_world
              (AgentDoc.mk "uuid-i" "Test Agent" "Test agent for automated testing"
                 "You are a test agent." "english" true
                 (TimeStr "2025-01-15T10:30:07.000001+00:00")) eq_refl)
    as (l1 & l2 & w' & Hc & _ & Hdel & Hag & _).
  exists w'. split; [exact Hdel |].
  rewrite Hag. apply (f_equal (@List.length _)) in Hc.
  rewrite length_app in *. cbn in Hc. lia.
Defined.

(* ================================================================= *)
(** ** Identifiers stay unique *)

Lemma update_one_no_match {D} (p : D -> bool) (f : D -> D) (c : list D) :
  (forall d, In d c -> p d = false) -> Collection.update_one p f c = c.
Proof.
  induction c as [| d c IH]; intros H; cbn; [reflexivity |].
  rewrite (H d (or_introl eq_refl)). rewrite IH; [reflexivity |].
  intros x Hx. apply H. right. exact Hx.
Qed.

Lemma find_one_none_inv {D} (p : D -> bool) (c : list D) :
  Collection.find_one p c = None -> forall d, In d c -> p d = false.
Proof. unfold Collection.find_one. apply find_none. Qed.

Lemma handle_agents (E : Env) (w : World) (e : Event) :
  agents (db (handle E w e)) =
  match e with
  | PostAgent d =>
      Collection.insert_one
        (agent_doc (Agent.mk (uuid4 E (uuid_draws w)) (AgentCreate.name d)
                      (AgentCreate.description d) (AgentCreate.system_prompt d)
                      (AgentCreate.language d) true (utc_now E (clock_reads w))))
        (agents (db w))
  | PutAgent i u => Collection.update_one (id_is i) (merged u) (agents (db w))
  | DeleteAgent i => fst (Collection.delete_one (id_is i) (agents (db w)))
  | Startup =>
      match Collection.find_one (name_is ORDER_AGENT_NAME) (agents (db w)) with
      | Some _ => agents (db w)
      | None =>
          Collection.insert_one
            (agent_doc (Agent.mk (uuid4 E (uuid_draws w)) ORDER_AGENT_NAME
                          "Hindi voice bot for taking customer orders"
                          ORDER_AGENT_PROMPT "hindi" true
                          (utc_now E (clock_reads w))))
            (agents (db w))
      end
  | _ => agents (db w)
  end.
Proof.
  destruct e as [d | | i | i u | i | d | | i | r |]; cbn [handle].
  - rewrite create_agent_eq. reflexivity.
  - rewrite get_agents_eq, for_each_rehydrate_world. reflexivity.
  - rewrite get_agent_eq. reflexivity.
  - rewrite update_agent_eq.
    destruct (Collection.find_one _ _) as [doc |] eqn:Hf.
    + cbv zeta. cbn [snd]. destruct (update_data u) eqn:Hu; [| reflexivity].
      apply update_data_nil in Hu. subst u.
      rewrite update_one_same by apply merged_no_fields. reflexivity.
    + cbn [snd]. rewrite update_one_no_match; [reflexivity |].
      apply find_one_none_inv. exact Hf.
  - rewrite delete_agent_eq. reflexivity.
  - reflexivity.
  - unfold get_llm_configs, bind, reads.
    rewrite for_each_world by apply rehydrate_llm_config_world. reflexivity.
  - unfold delete_llm_config, bind, delete_one_llm_config, not_found, raise, ret.
    destruct (snd _ =? 0); reflexivity.
  - rewrite chat_with_agent_eq.
    destruct (Collection.find_one _ _); [| reflexivity].
    cbv zeta. destruct (provider E _ _ _); reflexivity.
  - rewrite startup_event_eq.
    destruct (Collection.find_one _ _); reflexivity.
Qed.

Lemma map_id_update_one (p : AgentDoc.t -> bool) (u : AgentUpdate.t)
    (c : list AgentDoc.t) :
  map AgentDoc.id (Collection.update_one p (merged u) c) = map AgentDoc.id c.
Proof.
  induction c as [| d c IH]; cbn; [reflexivity |].
  destruct (p d); cbn; [reflexivity | rewrite IH; reflexivity].
Qed.

Lemma NoDup_delete_one {D K} (g : D -> K) (p : D -> bool) (c : list D) :
  NoDup (map g c) -> NoDup (map g (fst (Collection.delete_one p c))).
Proof.
  induction c as [| d c IH]; cbn; intros H; [constructor |].
  inversion H as [| k ks Hnotin Hnd]; subst.
  destruct (p d); [exact Hnd |].
  specialize (IH Hnd).
  destruct (Collection.delete_one p c) as [r n] eqn:Hr. cbn in *.
  constructor; [| exact IH].
  intros Hin. apply Hnotin. apply in_map_iff in Hin.
  destruct Hin as (x & Hx & Hxin). apply in_map_iff. exists x. split; [exact Hx |].
  apply (delete_one_incl p c x). rewrite Hr. exact Hxin.
Qed.

Lemma NoDup_insert_one {D K} (g : D -> K) (c : list D) (x : D) :
  NoDup (map g c) -> ~ In (g x) (map g c) ->
  NoDup (map g (Collection.insert_one x c)).
Proof.
  unfold Collection.insert_one.
  induction c as [| d c IH]; cbn; intros Hnd Hx.
  - constructor; [intros [] | constructor].
  - inversion Hnd as [| k ks Hnotin Hnd']; subst. constructor.
    + rewrite map_app, in_app_iff. cbn. intros [H | [H | []]].
      * apply Hnotin. exact H.
      * apply Hx. left. symmetry. exact H.
    + apply IH; [exact Hnd' |]. intros H. apply Hx. right. exact H.
Qed.

Lemma fresh_id_not_among (E : Env) (w : World) :
  never_repeats E -> ids_drawn E w ->
  ~ In (uuid4 E (uuid_draws w)) (map AgentDoc.id (agents (db w))).
Proof.
  intros Hinj Hids Hin. apply in_map_iff in Hin.
  destruct Hin as (d & Hid & Hd).
  pose proof (fresh_id_not_stored E w Hinj Hids d Hd) as Hf.
  unfold id_is in Hf. apply String.eqb_neq in Hf. apply Hf. exact Hid.
Qed.

Lemma handle_keeps_unique_ids (E : Env) (w : World) (e : Event) :
  never_repeats E -> ids_drawn E w -> unique_ids w ->
  unique_ids (handle E w e).
Proof.
  intros Hinj Hids Hu. unfold unique_ids in *. rewrite handle_agents.
  destruct e as [d | | i | i u | i | d | | i | r |]; try exact Hu.
  - apply NoDup_insert_one; [exact Hu |]. apply fresh_id_not_among; assumption.
  - rewrite map_id_update_one. exact Hu.
  - apply NoDup_delete_one. exact Hu.
  - destruct (Collection.find_one _ _); [exact Hu |].
    apply NoDup_insert_one; [exact Hu |]. apply fresh_id_not_among; assumption.
Qed.

(** X3.  Identifiers never repeating, no sequence of requests and startup
    runs ever brings two agents of the same identifier into a store whose
    identifiers were drawn and distinct; in particular none does from the
    empty store, however many agents are created. *)
Theorem stored_agent_ids_stay_unique
    (E : Env) (es : list Event) (w : World) :
  never_repeats E -> ids_drawn E w -> unique_ids w ->
  unique_ids (run E w es) /\ ids_drawn E (run E w es).
Proof.
  intros Hinj. revert w. induction es as [| e es IH]; intros w Hids Hu.
  - split; assumption.
  - cbn [run fold_left]. apply IH.
    + apply handle_keeps_ids_drawn. exact Hids.
    + apply handle_keeps_unique_ids; assumption.
Qed.

Lemma stored_agent_ids_stay_unique_witness :
  unique_ids (run sample_env initial_world
                [Startup; PostAgent test_agent_data; PostAgent test_agent_data]).
Proof.
  apply (stored_agent_ids_stay_unique sample_env
           [Startup; PostAgent test_agent_data; PostAgent test_agent_data]
           initial_world sample_uuid4_never_repeats).
  - constructor.
  - constructor.
Defined.

(** X4.  In a store of distinct identifiers a deleted agent is gone: after
    a successful Delete, Get, Update and a second Delete of the same
    identifier are all answered with 404 "Agent not found". *)
Theorem deleted_agent_is_gone
    (agent_id : string) (u : AgentUpdate.t) (w : World) (doc : AgentDoc.t) :
  unique_ids w ->
  Collection.find_one (id_is agent_id) (agents (db w)) = Some doc ->
  exists w',
    delete_agent agent_id w = (inr "Agent deleted successfully", w')
    /\ get_agent agent_id w' = (inl (HTTPException 404 "Agent not found"), w')
    /\ update_agent agent_id u w'
       = (inl (HTTPException 404 "Agent not found"), w')
    /\ delete_agent agent_id w'
       = (inl (HTTPException 404 "Agent not found"), w').
Proof.
  intros Hu Hfind.
  destruct (delete_one_some _ _ _ Hfind) as (l1 & l2 & Hc & Hl1 & Hdel).
  destruct (find_one_some _ _ _ Hfind) as [_ Hdoc].
  unfold id_is in Hdoc. apply String.eqb_eq in Hdoc.
  set (w' := mkWorld (mkDatabase (l1 ++ l2) (llm_configs (db w))
                                 (conversations (db w)))
                     (uuid_draws w) (clock_reads w) (provider_calls w)).
  assert (Hgone : forall d, In d (agents (db w')) -> id_is agent_id d = false).
  { cbn [w' db agents]. intros d Hd. apply in_app_or in Hd.
    destruct Hd as [Hd | Hd]; [apply Hl1; exact Hd |].
    unfold id_is. apply String.eqb_neq. intros Hid.
    unfold unique_ids in Hu. rewrite Hc, map_app in Hu. cbn [map] in Hu.
    apply NoDup_remove_2 in Hu. apply Hu. apply in_or_app. right.
    apply in_map_iff. exists d. split; [congruence | exact Hd]. }
  exists w'. split; [| split; [| split]].
  - rewrite delete_agent_eq, Hdel. reflexivity.
  - rewrite get_agent_eq, (find_one_none _ _ Hgone). reflexivity.
  - rewrite update_agent_eq, (find_one_none _ _ Hgone). reflexivity.
  - rewrite delete_agent_eq, (delete_one_none _ _ Hgone).
    cbn [fst snd Z.eqb]. rewrite world_eta. reflexivity.
Qed.

Lemma sample_world_unique_ids : unique_ids sample_world.
Proof.
  unfold unique_ids.
  change (map AgentDoc.id (agents (db sample_world))) with ["uuid-"; "uuid-i"].
  constructor; [intros [H | []]; discriminate |].
  constructor; [intros [] | constructor].
Qed.

Lemma deleted_agent_is_gone_witness :
  exists w',
    delete_agent "uuid-i" sample_world = (inr "Agent deleted successfully", w')
    /\ get_agent "uuid-i" w' = (inl (HTTPException 404 "Agent not found"), w').
Proof.
  destruct (deleted_agent_is_gone "uuid-i" no_fields sample_world
              (AgentDoc.mk "uuid-i" "Test Agent" "Test agent for automated testing"
                 "You are a test agent." "english" true
                 (TimeStr "2025-01-15T10:30:07.000001+00:00"))
              sample_world_unique_ids eq_refl) as (w' & Hd & Hg & _).
  exact (ex_intro _ w' (conj Hd Hg)).
Defined.

(* ================================================================= *)
(** ** Reading the registry *)

Lemma for_each_rehydrate_records (docs : list AgentDoc.t) (w : World) :
  for_each rehydrate_agent docs w = (records_of docs, w).
Proof.
  induction docs as [| d docs IH]; [reflexivity |].
  cbn [for_each records_of]. unfold bind at 1. rewrite rehydrate_agent_eq.
  destruct (record_of d) as [a |]; [| reflexivity].
  unfold bind. rewrite IH. destruct (records_of docs); reflexivity.
Qed.

Lemma get_agents_records (w : World) :
  get_agents w = (records_of (firstn 1000 (agents (db w))), w).
Proof. rewrite get_agents_eq. apply for_each_rehydrate_records. Qed.




Lemma records_of_app (l1 l2 : list AgentDoc.t) (r1 r2 : list Agent.t) :
  records_of l1 = inr r1 -> records_of l2 = inr r2 ->
  records_of (l1 ++ l2) = inr (r1 ++ r2)%list.
Proof.
  revert r1. induction l1 as [| d l1 IH]; cbn [records_of app]; intros r1 H1 H2.
  - injection H1 as <-. exact H2.
  - destruct (record_of d) as [a |]; [| discriminate].
    destruct (records_of l1) as [e | r] eqn:Hr; [discriminate |].
    injection H1 as <-. rewrite (IH r eq_refl H2). reflexivity.
Qed.

(** X5.  Get is answered with 404 "Agent not found" exactly when no stored
    agent has the identifier asked for. *)
Theorem get_agent_not_found_iff (agent_id : string) (w : World) :
  fst (get_agent agent_id w) = inl (HTTPException 404 "Agent not found")
  <-> (forall d, In d (agents (db w)) -> AgentDoc.id d <> agent_id).
Proof.
  rewrite get_agent_eq. cbn [fst]. split.
  - destruct (Collection.find_one _ _) as [doc |] eqn:Hf.
    + destruct (record_of doc); [discriminate |].
      destruct (AgentDoc.created_at doc); discriminate.
    + intros _ d Hd. apply String.eqb_neq.
      apply (find_one_none_inv _ _ Hf d Hd).
  - intros Hno. rewrite (find_one_none _ _ (no_agent_has_id _ _ Hno)).
    reflexivity.
Qed.

(** X6.  The three reading handlers write nothing: whatever List, Get and
    the configuration list answer, an error included, the world after them
    is the world before them. *)
Theorem reading_handlers_change_nothing (agent_id : string) (w : World) :
  snd (get_agents w) = w
  /\ snd (get_agent agent_id w) = w
  /\ snd (get_llm_configs w) = w.
Proof.
  split; [| split].
  - rewrite get_agents_records. reflexivity.
  - rewrite get_agent_eq. reflexivity.
  - unfold get_llm_configs, bind, reads.
    apply for_each_world. apply rehydrate_llm_config_world.
Qed.



(** X8.  Create and List.  While the store holds fewer than 1000 agents, a
    created agent is listed, last, after the agents that were listed before;
    once it holds 1000 or more, List answers after the creation what it
    answered before it: the new agent is stored but not listed. *)
Theorem create_then_list
    (E : Env) (agent_data : AgentCreate.t) (w : World) :
  clock_valid E ->
  exists (a : Agent.t) (w1 : World),
    create_agent E agent_data w = (inr a, w1)
    /\ (forall l, (List.length (agents (db w)) < 1000)%nat ->
                  get_agents w = (inr l, w) ->
                  get_agents w1 = (inr (l ++ [a])%list, w1))
    /\ ((1000 <= List.length (agents (db w)))%nat ->
        fst (get_agents w1) = fst (get_agents w)
        /\ In (agent_doc a) (agents (db w1))).
Proof.
  intros Hclock. rewrite create_agent_eq. cbv zeta.
  set (a := Agent.mk _ _ _ _ _ _ _). eexists a, _. split; [reflexivity |].
  rewrite !get_agents_records. cbn [db agents fst]. unfold Collection.insert_one.
  split.
  - intros l Hlen Hl. apply (f_equal fst) in Hl. cbn [fst] in Hl.
    rewrite firstn_all2 in Hl by lia.
    rewrite firstn_all2 by (rewrite length_app; cbn; lia).
    rewrite (records_of_app _ [agent_doc a] l [a] Hl); [reflexivity |].
    cbn [records_of]. rewrite record_of_agent_doc by apply Hclock. reflexivity.
  - intros Hlen. split.
    + rewrite firstn_app.
      replace (1000 - List.length (agents (db w)))%nat with 0%nat by lia.
      cbn [firstn]. rewrite app_nil_r. reflexivity.
    + apply in_or_app. right. left. reflexivity.
Qed.

Lemma create_then_list_witness :
  exists a w1 l,
    create_agent sample_env test_agent_data sample_world = (inr a, w1)
    /\ get_agents sample_world = (inr l, sample_world)
    /\ get_agents w1 = (inr (l ++ [a])%list, w1).
Proof.
  destruct (create_then_list sample_env test_agent_data sample_world
              sample_clock_valid) as (a & w1 & Hc & Hlt & _).
  destruct (get_agents_readable sample_world sample_world_readable)
    as (l & Hl & _).
  assert (Hlen : (List.length (agents (db sample_world)) < 1000)%nat).
  { vm_compute. lia. }
  exact (ex_intro _ a (ex_intro _ w1 (ex_intro _ l
           (conj Hc (conj Hl (Hlt l Hlen Hl)))))).
Defined.

(* ================================================================= *)
(** ** Update composed with itself and with Get *)

Lemma merged_twice (u : AgentUpdate.t) (d : AgentDoc.t) :
  merged u (merged u d) = merged u d.
Proof.
  destruct d as [i n de sp la ac ca].
  destruct u as [[un |] [ud |] [us |] [ul |] [ua |]]; reflexivity.
Qed.

Lemma update_one_twice {D} (p : D -> bool) (f : D -> D) (c : list D) :
  (forall d, p (f d) = p d) -> (forall d, f (f d) = f d) ->
  Collection.update_one p f (Collection.update_one p f c)
  = Collection.update_one p f c.
Proof.
  intros Hp Hf. induction c as [| d c IH]; cbn; [reflexivity |].
  destruct (p d) eqn:Hd; cbn.
  - rewrite Hp, Hd, Hf. reflexivity.
  - rewrite Hd, IH. reflexivity.
Qed.

(** X9.  Update is idempotent: sending the same body to the same
    identifier a second time gets the answer of the first time and leaves
    the world the first Update left, whether the agent exists or not. *)
Theorem update_agent_idempotent
    (agent_id : string) (u : AgentUpdate.t) (w : World) :
  update_agent agent_id u (snd (update_agent agent_id u w))
  = update_agent agent_id u w.
Proof.
  rewrite (update_agent_eq agent_id u w).
  destruct (Collection.find_one (id_is agent_id) (agents (db w)))
    as [doc |] eqn:Hfind.
  - cbv zeta. destruct (update_data u) as [| f fs] eqn:Hu.
    + cbn [snd]. rewrite update_agent_eq, Hfind. cbv zeta. rewrite Hu.
      rewrite ?Hfind. reflexivity.
    + cbn [snd db agents].
      assert (Hid : id_is agent_id (merged u doc) = true).
      { destruct (find_one_some _ _ _ Hfind) as [_ Hp]. exact Hp. }
      pose proof (find_one_update_one _ (merged u) _ _ Hfind Hid) as Hnew.
      rewrite update_agent_eq. cbn [db agents llm_configs conversations
                                     uuid_draws clock_reads provider_calls].
      rewrite Hnew. cbv zeta. rewrite Hu.
      cbn [db agents llm_configs conversations
           uuid_draws clock_reads provider_calls].
      rewrite update_one_twice;
        [| intros d; reflexivity | apply merged_twice].
      rewrite Hnew. reflexivity.
  - cbn [snd]. rewrite update_agent_eq, Hfind. reflexivity.
Qed.

(** X10.  An Update that succeeds is followed by a Get that answers the
    same record. *)
Theorem update_then_get
    (agent_id : string) (u : AgentUpdate.t) (w w1 : World) (a : Agent.t) :
  update_agent agent_id u w = (inr a, w1) ->
  get_agent agent_id w1 = (inr a, w1).
Proof.
  rewrite update_agent_eq.
  destruct (Collection.find_one (id_is agent_id) (agents (db w)))
    as [doc |] eqn:Hfind; [| discriminate].
  cbv zeta. intros H.
  pose proof (f_equal snd H) as Hw. cbn [snd] in Hw.
  apply (f_equal fst) in H. cbn [fst] in H.
  rewrite Hw in H. rewrite get_agent_eq.
  destruct (Collection.find_one (id_is agent_id) (agents (db w1)));
    [| discriminate].
  destruct (record_of _); [| discriminate].
  rewrite H. reflexivity.
Qed.

Lemma update_then_get_witness :
  let body := AgentUpdate.mk None (Some "Updated test agent description")
                             None None (Some false) in
  exists a w1,
    update_agent "uuid-i" body sample_world = (inr a, w1)
    /\ get_agent "uuid-i" w1 = (inr a, w1)
    /\ Agent.is_active a = false.
Proof.
  intros body.
  assert (Hrun : update_agent "uuid-i" body sample_world
                 = (inr (Agent.mk "uuid-i" "Test Agent"
                           "Updated test agent description"
                           "You are a test agent." "english" false (sample_now 1)),
                    snd (update_agent "uuid-i" body sample_world))).
  { vm_compute. reflexivity. }
  exact (ex_intro _ _ (ex_intro _ _
           (conj Hrun (conj (update_then_get _ _ _ _ _ Hrun) eq_refl)))).
Defined.

(* ================================================================= *)
(** ** What a chat reads and what the events write *)

(** X11.  Of the stored agent a chat reads the system prompt and nothing
    else: from two worlds whose agents of that identifier carry the same
    prompt (and may differ in name, description, language and [is_active]),
    a chat request gets the same answer, makes the same provider call and
    stores the same turns.  An agent switched to inactive is still
    answered. *)
Theorem chat_reads_only_the_system_prompt
    (E : Env) (request : ChatRequest.t) (w1 w2 : World) (a1 a2 : AgentDoc.t) :
  Collection.find_one (id_is (ChatRequest.agent_id request)) (agents (db w1))
  = Some a1 ->
  Collection.find_one (id_is (ChatRequest.agent_id request)) (agents (db w2))
  = Some a2 ->
  AgentDoc.system_prompt a1 = AgentDoc.system_prompt a2 ->
  conversations (db w1) = conversations (db w2) ->
  uuid_draws w1 = uuid_draws w2 ->
  clock_reads w1 = clock_reads w2 ->
  provider_calls w1 = provider_calls w2 ->
  fst (chat_with_agent E request w1) = fst (chat_with_agent E request w2)
  /\ conversations (db (snd (chat_with_agent E request w1)))
     = conversations (db (snd (chat_with_agent E request w2)))
  /\ provider_calls (snd (chat_with_agent E request w1))
     = provider_calls (snd (chat_with_agent E request w2)).
Proof.
  intros Hf1 Hf2 Hsp Hcv Hu Hc Hp.
  rewrite !chat_with_agent_eq, Hf1, Hf2. cbv zeta.
  assert (Hcall : gemini_call E request a1 w1 = gemini_call E request a2 w2).
  { unfold gemini_call, resolved_session. rewrite Hsp, Hu. reflexivity. }
  assert (Hn : draws_after_session request w1 = draws_after_session request w2).
  { unfold draws_after_session. rewrite Hu. reflexivity. }
  assert (Hs : resolved_session E request w1 = resolved_session E request w2).
  { unfold resolved_session. rewrite Hu. reflexivity. }
  assert (Hut : user_turn E request w1 = user_turn E request w2).
  { unfold user_turn. rewrite Hn, Hs, Hc. reflexivity. }
  assert (Hat : forall r, assistant_turn E request w1 r
                          = assistant_turn E request w2 r).
  { intros r. unfold assistant_turn. rewrite Hn, Hs, Hc. reflexivity. }
  rewrite Hcall, Hp.
  destruct (provider E _ _ _) as [reply | why]; cbn.
  - rewrite Hs, Hcv, Hut, Hat. repeat split.
  - rewrite Hcv. repeat split.
Qed.

Lemma chat_reads_only_the_system_prompt_witness :
  let request := ChatRequest.mk "uuid-i" "hello" (Some "s1") in
  let w2 := handle sample_env sample_world
              (PutAgent "uuid-i" (AgentUpdate.mk (Some "Renamed") None None None
                                                 (Some false))) in
  agents (db sample_world) <> agents (db w2)
  /\ fst (chat_with_agent sample_env request sample_world)
     = fst (chat_with_agent sample_env request w2).
Proof.
  intros request w2. split; [vm_compute; discriminate |].
  refine (proj1 (chat_reads_only_the_system_prompt sample_env request
                   sample_world w2 _ _ eq_refl eq_refl eq_refl eq_refl eq_refl
                   eq_refl eq_refl)).
Defined.

Lemma handle_llm_configs (E : Env) (w : World) (e : Event) :
  llm_configs (db (handle E w e)) =
  match e with
  | PostLLMConfig d =>
      Collection.insert_one
        (llm_config_doc
           (LLMConfig.mk (uuid4 E (uuid_draws w)) (LLMConfigCreate.provider d)
              (LLMConfigCreate.api_key d) (LLMConfigCreate.model_name d)
              (utc_now E (clock_reads w))))
        (llm_configs (db w))
  | DeleteLLMConfig i =>
      fst (Collection.delete_one (config_id_is i) (llm_configs (db w)))
  | _ => llm_configs (db w)
  end.
Proof.
  destruct e as [d | | i | i u | i | d | | i | r |]; cbn [handle].
  - rewrite create_agent_eq. reflexivity.
  - rewrite get_agents_eq, for_each_rehydrate_world. reflexivity.
  - rewrite get_agent_eq. reflexivity.
  - rewrite update_agent_eq.
    destruct (Collection.find_one _ _); [| reflexivity].
    cbv zeta. destruct (update_data u); reflexivity.
  - rewrite delete_agent_eq. reflexivity.
  - reflexivity.
  - unfold get_llm_configs, bind, reads.
    rewrite for_each_world by apply rehydrate_llm_config_world. reflexivity.
  - unfold delete_llm_config, bind, delete_one_llm_config, not_found, raise, ret.
    destruct (snd _ =? 0); reflexivity.
  - rewrite chat_with_agent_eq.
    destruct (Collection.find_one _ _); [| reflexivity].
    cbv zeta. destruct (provider E _ _ _); reflexivity.
  - rewrite startup_event_eq.
    destruct (Collection.find_one _ _); reflexivity.
Qed.

Lemma handle_provider_calls (E : Env) (w : World) (e : Event) :
  is_chat e = false -> provider_calls (handle E w e) = provider_calls w.
Proof.
  destruct e as [d | | i | i u | i | d | | i | r |]; cbn [handle is_chat];
    intros Hc; try discriminate Hc.
  - rewrite create_agent_eq. reflexivity.
  - rewrite get_agents_eq, for_each_rehydrate_world. reflexivity.
  - rewrite get_agent_eq. reflexivity.
  - rewrite update_agent_eq.
    destruct (Collection.find_one _ _); [| reflexivity].
    cbv zeta. destruct (update_data u); reflexivity.
  - rewrite delete_agent_eq. reflexivity.
  - reflexivity.
  - unfold get_llm_configs, bind, reads.
    rewrite for_each_world by apply rehydrate_llm_config_world. reflexivity.
  - unfold delete_llm_config, bind, delete_one_llm_config, not_found, raise, ret.
    destruct (snd _ =? 0); reflexivity.
  - rewrite startup_event_eq.
    destruct (Collection.find_one _ _); reflexivity.
Qed.

Lemma handle_conversations (E : Env) (w : World) (e : Event) :
  is_chat e = false -> conversations (db (handle E w e)) = conversations (db w).
Proof.
  destruct e; cbn [handle is_chat]; intros Hc; try discriminate Hc.
  - apply keeps_create_agent.
  - apply keeps_get_agents.
  - apply keeps_get_agent.
  - apply keeps_update_agent.
  - apply keeps_delete_agent.
  - apply keeps_create_llm_config.
  - apply keeps_get_llm_configs.
  - apply keeps_delete_llm_config.
  - apply keeps_startup_event.
Qed.

(** X12.  Each event writes to its own collection only.  The agents change
    only on POST, PUT and DELETE of an agent and on startup; the
    configurations only on POST and DELETE of a configuration; the
    conversations and the trace of provider calls only on a chat. *)
Theorem events_write_only_their_collection (E : Env) (w : World) (e : Event) :
  match e with
  | PostAgent _ | PutAgent _ _ | DeleteAgent _ | Startup => True
  | _ => agents (db (handle E w e)) = agents (db w)
  end
  /\ match e with
     | PostLLMConfig _ | DeleteLLMConfig _ => True
     | _ => llm_configs (db (handle E w e)) = llm_configs (db w)
     end
  /\ match e with
     | PostChat _ => True
     | _ => conversations (db (handle E w e)) = conversations (db w)
            /\ provider_calls (handle E w e) = provider_calls w
     end.
Proof.
  pose proof (handle_agents E w e) as Ha.
  pose proof (handle_llm_configs E w e) as Hl.
  pose proof (handle_conversations E w e) as Hc.
  pose proof (handle_provider_calls E w e) as Hp.
  destruct e; cbn [is_chat] in *; repeat split; auto.
Qed.

Lemma chat_provider_calls (E : Env) (request : ChatRequest.t) (w : World) :
  exists calls,
    provider_calls (snd (chat_with_agent E request w))
    = (provider_calls w ++ calls)%list
    /\ Forall is_gemini_call calls
    /\ (List.length calls <= 1)%nat.
Proof.
  rewrite chat_with_agent_eq.
  destruct (Collection.find_one _ _) as [agent |].
  - cbv zeta. exists [gemini_call E request agent w].
    destruct (provider E _ _ _); cbn; repeat split;
      try (repeat constructor); lia.
  - exists []. cbn. rewrite app_nil_r. repeat split; [constructor | lia].
Qed.

(** X13.  The provider is called by chats only, at most once per chat
    request, and always as "gemini" / "gemini-2.0-flash": along any
    sequence of events the trace of provider calls grows by such calls, no
    more of them than there are chat requests in the sequence. *)
Theorem provider_is_called_by_chat_only
    (E : Env) (es : list Event) (w : World) :
  exists calls : list ProviderCall,
    provider_calls (run E w es) = (provider_calls w ++ calls)%list
    /\ Forall is_gemini_call calls
    /\ (List.length calls <= List.length (filter is_chat es))%nat.
Proof.
  revert w. induction es as [| e es IH]; intros w.
  - exists []. cbn. rewrite app_nil_r. repeat split; [constructor | lia].
  - cbn [run fold_left]. destruct (IH (handle E w e)) as (cs & Hcs & Hg & Hlen).
    fold (run E (handle E w e) es) in Hcs.
    destruct (is_chat e) eqn:He.
    + destruct e; try discriminate He. cbn [handle] in *.
      destruct (chat_provider_calls E request w) as (c1 & Hc1 & Hg1 & Hl1).
      exists (c1 ++ cs)%list. fold (run E (snd (chat_with_agent E request w)) es).
      rewrite Hcs, Hc1, app_assoc. split; [reflexivity |]. split.
      * apply Forall_app. split; assumption.
      * cbn [filter is_chat]. rewrite length_app. cbn [List.length]. lia.
    + exists cs. fold (run E (handle E w e) es).
      rewrite Hcs, (handle_provider_calls E w e He).
      split; [reflexivity |]. split; [exact Hg |].
      cbn [filter]. rewrite He. exact Hlen.
Qed.

Lemma paired_app (l1 l2 : list ConversationDoc.t) :
  paired l1 -> paired l2 -> paired (l1 ++ l2).
Proof.
  induction 1 as [| u a rest Hu Ha Hs Hi _ IH]; intros H2; [exact H2 |].
  cbn [app]. constructor; auto.
Qed.

Lemma chat_conversations_pair (E : Env) (request : ChatRequest.t) (w : World) :
  exists added,
    conversations (db (snd (chat_with_agent E request w)))
    = (conversations (db w) ++ added)%list
    /\ paired added
    /\ (List.length added <= 2)%nat.
Proof.
  rewrite chat_with_agent_eq.
  destruct (Collection.find_one _ _) as [agent |].
  - cbv zeta. destruct (provider E _ _ _) as [reply | why].
    + exists [user_turn E request w; assistant_turn E request w reply].
      cbn. repeat split; [| lia]. constructor; try reflexivity. constructor.
    + exists []. cbn. rewrite app_nil_r. repeat split; [constructor | lia].
  - exists []. cbn. rewrite app_nil_r. repeat split; [constructor | lia].
Qed.

(** X14.  Conversations are only ever appended, and in pairs: along any
    sequence of events the collection grows by user turn, assistant turn,
    user turn, assistant turn, ..., the two turns of a pair under the same
    session and agent, and by no more than two documents per chat
    request.  No event updates or deletes a stored turn. *)
Theorem conversations_grow_by_pairs
    (E : Env) (es : list Event) (w : World) :
  exists added : list ConversationDoc.t,
    conversations (db (run E w es)) = (conversations (db w) ++ added)%list
    /\ paired added
    /\ (List.length added <= 2 * List.length (filter is_chat es))%nat.
Proof.
  revert w. induction es as [| e es IH]; intros w.
  - exists []. cbn. rewrite app_nil_r. repeat split; [constructor | lia].
  - cbn [run fold_left]. destruct (IH (handle E w e)) as (cs & Hcs & Hp & Hlen).
    fold (run E (handle E w e) es) in Hcs.
    destruct (is_chat e) eqn:He.
    + destruct e; try discriminate He. cbn [handle] in *.
      destruct (chat_conversations_pair E request w) as (c1 & Hc1 & Hp1 & Hl1).
      exists (c1 ++ cs)%list. fold (run E (snd (chat_with_agent E request w)) es).
      rewrite Hcs, Hc1, app_assoc. split; [reflexivity |]. split.
      * apply paired_app; assumption.
      * cbn [filter is_chat]. rewrite length_app. cbn [List.length]. lia.
    + exists cs. fold (run E (handle E w e) es).
      rewrite Hcs, (handle_conversations E w e He).
      split; [reflexivity |]. split; [exact Hp |].
      cbn [filter]. rewrite He. exact Hlen.
Qed.

(* ================================================================= *)
(** ** LLM configuration registry *)

Lemma create_llm_config_eq (E : Env) (d : LLMConfigCreate.t) (w : World) :
  create_llm_config E d w =
  let c := LLMConfig.mk (uuid4 E (uuid_draws w)) (LLMConfigCreate.provider d)
             (LLMConfigCreate.api_key d) (LLMConfigCreate.model_name d)
             (utc_now E (clock_reads w)) in
  (inr c,
   mkWorld (mkDatabase (agents (db w))
              (Collection.insert_one (llm_config_doc c) (llm_configs (db w)))
              (conversations (db w)))
           (S (uuid_draws w)) (S (clock_reads w)) (provider_calls w)).
Proof. reflexivity. Qed.

Lemma rehydrate_llm_config_eq (d : LLMConfigDoc.t) (w : World) :
  rehydrate_llm_config d w =
  (match config_record_of d with
   | Some c => inr c
   | None => inl (time_error (LLMConfigDoc.created_at d))
   end, w).
Proof.
  unfold rehydrate_llm_config, config_record_of, rehydrate_time, time_error,
    bind, ret, raise.
  destruct (LLMConfigDoc.created_at d) as [s | ts]; [| reflexivity].
  destruct (fromisoformat s); reflexivity.
Qed.

Lemma get_llm_configs_records (w : World) :
  get_llm_configs w = (config_records_of (firstn 1000 (llm_configs (db w))), w).
Proof.
  unfold get_llm_configs, bind at 1, reads, Collection.to_list.
  induction (firstn 1000 (llm_configs (db w))) as [| d docs IH]; [reflexivity |].
  cbn [for_each config_records_of]. unfold bind at 1.
  rewrite rehydrate_llm_config_eq.
  destruct (config_record_of d) as [c |]; [| reflexivity].
  unfold bind. rewrite IH. destruct (config_records_of docs); reflexivity.
Qed.

Lemma config_records_of_app (l1 l2 : list LLMConfigDoc.t)
    (r1 r2 : list LLMConfig.t) :
  config_records_of l1 = inr r1 -> config_records_of l2 = inr r2 ->
  config_records_of (l1 ++ l2) = inr (r1 ++ r2)%list.
Proof.
  revert r1. induction l1 as [| d l1 IH];
    cbn [config_records_of app]; intros r1 H1 H2.
  - injection H1 as <-. exact H2.
  - destruct (config_record_of d) as [c |]; [| discriminate].
    destruct (config_records_of l1) as [e | r] eqn:Hr; [discriminate |].
    injection H1 as <-. rewrite (IH r eq_refl H2). reflexivity.
Qed.

Lemma config_record_of_llm_config_doc (c : LLMConfig.t) :
  Datetime.valid (LLMConfig.created_at c) = true ->
  config_record_of (llm_config_doc c) = Some c.
Proof.
  intros Hv. unfold config_record_of, llm_config_doc.
  cbn [LLMConfigDoc.created_at LLMConfigDoc.id LLMConfigDoc.provider
       LLMConfigDoc.api_key LLMConfigDoc.model_name].
  rewrite fromisoformat_isoformat by exact Hv. destruct c; reflexivity.
Qed.

Lemma delete_llm_config_eq (config_id : string) (w : World) :
  delete_llm_config config_id w =
  let r := Collection.delete_one (config_id_is config_id) (llm_configs (db w)) in
  (if snd r =? 0 then inl (HTTPException 404 "Configuration not found")
   else inr "Configuration deleted successfully",
   mkWorld (mkDatabase (agents (db w)) (fst r) (conversations (db w)))
           (uuid_draws w) (clock_reads w) (provider_calls w)).
Proof.
  unfold delete_llm_config, bind, delete_one_llm_config, not_found, raise, ret.
  cbv zeta. destruct (snd _ =? 0); reflexivity.
Qed.

(** X15.  A created configuration is answered with the provider, the API
    key and the model name exactly as submitted, and is stored after the
    configurations already there.  While fewer than 1000 are stored, the
    configuration list then answers what it answered before followed by the
    new record, API key included, unredacted; once 1000 or more are stored
    it answers what it answered before. *)
Theorem create_then_list_llm_configs
    (E : Env) (config_data : LLMConfigCreate.t) (w : World) :
  clock_valid E ->
  exists (c : LLMConfig.t) (w1 : World),
    create_llm_config E config_data w = (inr c, w1)
    /\ LLMConfig.provider c = LLMConfigCreate.provider config_data
    /\ LLMConfig.api_key c = LLMConfigCreate.api_key config_data
    /\ LLMConfig.model_name c = LLMConfigCreate.model_name config_data
    /\ llm_configs (db w1) = (llm_configs (db w) ++ [llm_config_doc c])%list
    /\ agents (db w1) = agents (db w)
    /\ (forall l, (List.length (llm_configs (db w)) < 1000)%nat ->
                  get_llm_configs w = (inr l, w) ->
                  get_llm_configs w1 = (inr (l ++ [c])%list, w1))
    /\ ((1000 <= List.length (llm_configs (db w)))%nat ->
        fst (get_llm_configs w1) = fst (get_llm_configs w)).
Proof.
  intros Hclock. rewrite create_llm_config_eq. cbv zeta.
  set (c := LLMConfig.mk _ _ _ _ _). eexists c, _. split; [reflexivity |].
  rewrite !get_llm_configs_records. cbn [db llm_configs agents fst].
  unfold Collection.insert_one.
  do 5 (split; [reflexivity |]). split.
  - intros l Hlen Hl. apply (f_equal fst) in Hl. cbn [fst] in Hl.
    rewrite firstn_all2 in Hl by lia.
    rewrite firstn_all2 by (rewrite length_app; cbn; lia).
    rewrite (config_records_of_app _ [llm_config_doc c] l [c] Hl);
      [reflexivity |].
    cbn [config_records_of].
    rewrite config_record_of_llm_config_doc by apply Hclock. reflexivity.
  - intros Hlen. rewrite firstn_app.
    replace (1000 - List.length (llm_configs (db w)))%nat with 0%nat by lia.
    cbn [firstn]. rewrite app_nil_r. reflexivity.
Qed.

Lemma create_then_list_llm_configs_witness :
  exists c w1,
    create_llm_config sample_env (LLMConfigCreate.mk "gemini" "sk-live" "gemini-pro")
                      sample_world = (inr c, w1)
    /\ LLMConfig.api_key c = "sk-live"
    /\ get_llm_configs w1 = (inr [c], w1).
Proof.
  destruct (create_then_list_llm_configs sample_env
              (LLMConfigCreate.mk "gemini" "sk-live" "gemini-pro") sample_world
              sample_clock_valid)
    as (c & w1 & Hc & _ & Hk & _ & _ & _ & Hlt & _).
  assert (Hlen : (List.length (llm_configs (db sample_world)) < 1000)%nat).
  { vm_compute. lia. }
  exact (ex_intro _ c (ex_intro _ w1
           (conj Hc (conj Hk (Hlt [] Hlen eq_refl))))).
Defined.

(** X16.  Delete of a configuration.  An identifier that no stored
    configuration has is answered with 404 "Configuration not found" and
    nothing changes; otherwise the success message is answered and the
    first configuration of that identifier is removed, the others, the
    agents and the conversations staying as they were. *)
Theorem delete_llm_config_removes_first_match
    (config_id : string) (w : World) :
  ((forall d, In d (llm_configs (db w)) -> LLMConfigDoc.id d <> config_id) ->
   delete_llm_config config_id w
   = (inl (HTTPException 404 "Configuration not found"), w))
  /\ (forall doc,
        Collection.find_one (config_id_is config_id) (llm_configs (db w))
        = Some doc ->
        exists l1 l2 w',
          llm_configs (db w) = (l1 ++ doc :: l2)%list
          /\ (forall x, In x l1 -> LLMConfigDoc.id x <> config_id)
          /\ delete_llm_config config_id w
             = (inr "Configuration deleted successfully", w')
          /\ llm_configs (db w') = (l1 ++ l2)%list
          /\ agents (db w') = agents (db w)
          /\ conversations (db w') = conversations (db w)).
Proof.
  split.
  - intros Hno. rewrite delete_llm_config_eq. rewrite delete_one_none.
    + cbn [fst snd Z.eqb]. rewrite world_eta. reflexivity.
    + intros d Hd. unfold config_id_is. apply String.eqb_neq. apply Hno. exact Hd.
  - intros doc Hfind.
    destruct (delete_one_some _ _ _ Hfind) as (l1 & l2 & Hc & Hl1 & Hdel).
    exists l1, l2. eexists. split; [exact Hc |]. split.
    + intros x Hx. apply String.eqb_neq. apply (Hl1 x Hx).
    + rewrite delete_llm_config_eq, Hdel. cbn. repeat split.
Qed.

Lemma delete_llm_config_removes_first_match_witness :
  let w := snd (create_llm_config sample_env
                  (LLMConfigCreate.mk "gemini" "sk-live" "gemini-pro")
                  sample_world) in
  delete_llm_config "missing" w
  = (inl (HTTPException 404 "Configuration not found"), w)
  /\ exists w', delete_llm_config "uuid-ii" w
                = (inr "Configuration deleted successfully", w')
                /\ llm_configs (db w') = [].
Proof.
  intros w.
  destruct (delete_llm_config_removes_first_match "missing" w) as [Hnone _].
  destruct (delete_llm_config_removes_first_match "uuid-ii" w) as [_ Hsome].
  split.
  - apply Hnone. intros d Hd. vm_compute in Hd.
    destruct Hd as [<- | []]; discriminate.
  - destruct (Hsome (LLMConfigDoc.mk "uuid-ii" "gemini" "sk-live" "gemini-pro"
                       (TimeStr "2025-01-15T10:30:07.000002+00:00")) eq_refl)
      as (l1 & l2 & w' & Hc & _ & Hdel & Hl & _).
    exists w'. split; [exact Hdel |]. rewrite Hl.
    destruct l1 as [| x l1]; [| destruct l1; discriminate Hc].
    destruct l2; [reflexivity | discriminate Hc].
Defined.

(** X17.  A session carries over.  When a chat is answered under a
    non-empty session and the next request names that session, the next
    answer is under it too, and the four turns the two chats store, in
    order, all carry it. *)
Theorem chat_session_carries_over
    (E : Env) (first : ChatRequest.t) (agent_id message : string)
    (w w1 w2 : World) (r1 r2 : ChatResponse.t) :
  chat_with_agent E first w = (inr r1, w1) ->
  ChatResponse.session_id r1 <> "" ->
  chat_with_agent E
    (ChatRequest.mk agent_id message (Some (ChatResponse.session_id r1))) w1
  = (inr r2, w2) ->
  ChatResponse.session_id r2 = ChatResponse.session_id r1
  /\ exists u1 a1 u2 a2,
       conversations (db w2)
       = (conversations (db w) ++ [u1; a1; u2; a2])%list
       /\ Forall (fun m => ConversationDoc.session_id m
                           = ChatResponse.session_id r1) [u1; a1; u2; a2]
       /\ ConversationDoc.content a1 = ChatResponse.response r1
       /\ ConversationDoc.content u2 = message
       /\ ConversationDoc.content a2 = ChatResponse.response r2.
Proof.
  intros H1 Hne H2.
  rewrite chat_with_agent_eq in H1.
  destruct (Collection.find_one _ _) as [ag1 |]; [| discriminate].
  cbv zeta in H1.
  destruct (provider E _ _ _) as [reply1 | why]; [| discriminate].
  injection H1 as <- <-. cbn [ChatResponse.session_id] in *.
  set (sid := resolved_session E first w) in *.
  rewrite chat_with_agent_eq in H2.
  destruct (Collection.find_one _ _) as [ag2 |]; [| discriminate].
  cbv zeta in H2.
  destruct (provider E _ _ _) as [reply2 | why]; [| discriminate].
  injection H2 as <- <-.
  assert (Hs : forall w0, resolved_session E
                 (ChatRequest.mk agent_id message (Some sid)) w0 = sid).
  { intros w0. unfold resolved_session. cbn [ChatRequest.session_id].
    destruct sid; [congruence | reflexivity]. }
  cbn [ChatResponse.session_id ChatResponse.response]. split; [apply Hs |].
  eexists _, _, _, _. cbn [db conversations]. split.
  - rewrite <- app_assoc. cbn [app]. reflexivity.
  - split; [| repeat split].
    unfold user_turn, assistant_turn.
    repeat (constructor; [cbn [ConversationDoc.session_id];
                          first [reflexivity | apply Hs] |]).
    constructor.
Qed.

Lemma chat_session_carries_over_witness :
  exists r1 w1 r2 w2,
    chat_with_agent sample_env (ChatRequest.mk "uuid-i" "hello" None) sample_world
    = (inr r1, w1)
    /\ chat_with_agent sample_env
         (ChatRequest.mk "uuid-i" "two pizzas" (Some (ChatResponse.session_id r1))) w1
       = (inr r2, w2)
    /\ ChatResponse.session_id r2 = ChatResponse.session_id r1
    /\ List.length (conversations (db w2)) = 4%nat.
Proof.
  set (q1 := ChatRequest.mk "uuid-i" "hello" None).
  set (r1 := ChatResponse.mk "Namaste! hello" "uuid-ii").
  set (w1 := snd (chat_with_agent sample_env q1 sample_world)).
  set (q2 := ChatRequest.mk "uuid-i" "two pizzas" (Some (ChatResponse.session_id r1))).
  set (r2 := ChatResponse.mk "Namaste! two pizzas" "uuid-ii").
  set (w2 := snd (chat_with_agent sample_env q2 w1)).
  assert (H1 : chat_with_agent sample_env q1 sample_world = (inr r1, w1)).
  { vm_compute. reflexivity. }
  assert (H2 : chat_with_agent sample_env q2 w1 = (inr r2, w2)).
  { vm_compute. reflexivity. }
  assert (Hne : ChatResponse.session_id r1 <> "") by (cbn; discriminate).
  destruct (chat_session_carries_over sample_env q1 "uuid-i" "two pizzas"
              sample_world w1 w2 r1 r2 H1 Hne H2)
    as (Hs & u1 & a1 & u2 & a2 & Hc & _).
  assert (Hlen : List.length (conversations (db w2)) = 4%nat).
  { rewrite Hc. reflexivity. }
  exact (ex_intro _ r1 (ex_intro _ w1 (ex_intro _ r2 (ex_intro _ w2
           (conj H1 (conj H2 (conj Hs Hlen))))))).
Defined.

(* ================================================================= *)
(** ** The API tester *)

Section TesterProperties.
Context {Value : Type} (P : Tester.Python Value) (N : Tester.Network Value).

Lemma log_result_eq (name : string) (passed : bool) (details : string)
    (s : Tester.t Value) :
  Tester.test_results (Tester.log_result name passed details s)
  = (Tester.test_results s
     ++ [Tester.mkResult name (if passed then "PASSED" else "FAILED") details])%list
  /\ Tester.tests_run (Tester.log_result name passed details s)
     = Tester.tests_run s + 1
  /\ Tester.tests_passed (Tester.log_result name passed details s)
     = Tester.tests_passed s + (if passed then 1 else 0)
  /\ Tester.sent (Tester.log_result name passed details s) = Tester.sent s
  /\ Tester.created_agent_id (Tester.log_result name passed details s)
     = Tester.created_agent_id s
  /\ Tester.base_url (Tester.log_result name passed details s)
     = Tester.base_url s.
Proof. destruct passed; cbn; repeat split; lia. Qed.

(** What [run_test] leaves behind, by the request it makes and the outcome
    of that request. *)
Lemma run_test_eq (name method endpoint : string) (expected : Z)
    (data : option Value) (hs : option (list (string * string)))
    (s : Tester.t Value) :
  let out := Tester.run_test P N name method endpoint expected data hs s in
  let rq := Tester.request_for method
              (Tester.base_url s ++ "/" ++ endpoint)
              (match hs with
               | None => Tester.default_headers
               | Some h => h
               end) data in
  let ok := match rq with
            | Some q =>
                match N (List.length (Tester.sent s)) q with
                | Tester.Responded code _ _ => code =? expected
                | _ => false
                end
            | None => false
            end in
  fst (fst out) = ok
  /\ (exists d,
        Tester.test_results (snd out)
        = (Tester.test_results s
           ++ [Tester.mkResult name (if ok then "PASSED" else "FAILED") d])%list)
  /\ Tester.tests_run (snd out) = Tester.tests_run s + 1
  /\ Tester.tests_passed (snd out) = Tester.tests_passed s + (if ok then 1 else 0)
  /\ Tester.sent (snd out)
     = (Tester.sent s ++ match rq with
                         | Some q => [q]
                         | None => []
                         end)%list
  /\ Tester.created_agent_id (snd out) = Tester.created_agent_id s
  /\ Tester.base_url (snd out) = Tester.base_url s
  /\ (ok = false -> snd (fst out) = Tester.py_dict P []).
Proof.
  cbv zeta. unfold Tester.run_test.
  destruct (Tester.request_for _ _ _ _) as [q |].
  - destruct (N _ q) as [code text body | | |];
      [destruct (code =? expected) |..]; cbn;
      rewrite ?app_nil_r; repeat split; try lia; try discriminate;
      eexists; reflexivity.
  - cbn. rewrite app_nil_r. repeat split; try lia. eexists; reflexivity.
Qed.









End TesterProperties.


(* ================================================================= *)
(** ** The API tester on a console that may refuse a print *)

Section PrintingTesterProperties.
Context {Value : Type} (P : Tester.Python Value) (N : Tester.Network Value)
        (C : PrintingTester.Console).

Ltac console :=
  repeat (match goal with
          | |- context [C ?a ?b] => destruct (C a b) eqn:?
          end; cbn).

(** On a console that takes every text, [run_test] returns, and returns
    and leaves what the tester of module [Tester] does. *)
Lemma run_test_on_accepting_console (name method endpoint : string)
    (expected : Z) (data : option Value) (hs : option (list (string * string)))
    (s : PrintingTester.t Value) :
  (forall printed text, C printed text = None) ->
  fst (PrintingTester.run_test P N C name method endpoint expected data hs s)
  = inr (fst (Tester.run_test P N name method endpoint expected data hs
                (PrintingTester.tester s)))
  /\ PrintingTester.tester
       (snd (PrintingTester.run_test P N C name method endpoint expected data hs s))
     = snd (Tester.run_test P N name method endpoint expected data hs
              (PrintingTester.tester s)).
Proof.
  intros Hc.
  unfold PrintingTester.run_test, Tester.run_test, PrintingTester.log_failure,
    PrintingTester.log_result, PrintingTester.print.
  destruct (Tester.request_for _ _ _ _) as [q |];
    [destruct (N _ q) as [code text body | | |];
     [destruct (code =? expected) |..] |];
    cbn; rewrite ?Hc; cbn; rewrite ?Hc; cbn; split; reflexivity.
Qed.

(** X18.  Whatever the backend answers and whatever the console does,
    [run_test] records one result under the test's name, or two, and sends
    at most one request.  The first result is PASSED exactly when the method
    is one of GET, POST, PUT, DELETE and the backend answered with the
    expected status; a second result is always FAILED (it logs the exception
    of a [print] raised while the first was logged).  [True] is returned
    only after a single, PASSED result; when an exception leaves [run_test]
    the result recorded last is FAILED.  On a console that takes every text
    [run_test] returns, with the status check as its first component, after
    exactly one result. *)
Theorem run_test_records_one_or_two_results
    (name method endpoint : string) (expected : Z)
    (data : option Value) (hs : option (list (string * string)))
    (s : PrintingTester.t Value) :
  let out := PrintingTester.run_test P N C name method endpoint expected data hs s in
  let before := PrintingTester.tester s in
  let after := PrintingTester.tester (snd out) in
  let rq := Tester.request_for method (Tester.base_url before ++ "/" ++ endpoint)
              (match hs with
               | None => Tester.default_headers
               | Some h => h
               end) data in
  let answered := match rq with
                  | Some q =>
                      match N (List.length (Tester.sent before)) q with
                      | Tester.Responded code _ _ => code =? expected
                      | _ => false
                      end
                  | None => false
                  end in
  (exists (r1 : Tester.TestResult) (rest : list Tester.TestResult),
      Tester.test_results after = (Tester.test_results before ++ r1 :: rest)%list
      /\ Tester.test r1 = name
      /\ Tester.status r1 = (if answered then "PASSED" else "FAILED")
      /\ (rest = []
          \/ exists r2, rest = [r2] /\ Tester.test r2 = name
                        /\ Tester.status r2 = "FAILED")
      /\ Tester.tests_run after
         = Tester.tests_run before + Z.of_nat (S (List.length rest))
      /\ (forall v, fst out = inr (true, v) -> rest = [] /\ answered = true)
      /\ (forall e, fst out = inl e -> Tester.status (last rest r1) = "FAILED"))
  /\ Tester.sent after
     = (Tester.sent before ++ match rq with
                              | Some q => [q]
                              | None => []
                              end)%list
  /\ ((forall printed text, C printed text = None) ->
      exists r v,
        fst out = inr (answered, v)
        /\ Tester.test_results after = (Tester.test_results before ++ [r])%list).
Proof.
  cbv zeta. split; [| split].
  - unfold PrintingTester.run_test, PrintingTester.log_failure,
      PrintingTester.log_result, PrintingTester.print.
    destruct (Tester.request_for _ _ _ _) as [q |];
      [destruct (N _ q) as [code text body | | |];
       [destruct (code =? expected) |..] |];
      cbn; console;
      eexists; eexists; rewrite <- ?app_assoc; cbn [app];
      repeat split; try reflexivity; try discriminate;
      try (left; reflexivity);
      try (right; eexists; repeat split; reflexivity);
      try (simpl; lia).
  - unfold PrintingTester.run_test, PrintingTester.log_failure,
      PrintingTester.log_result, PrintingTester.print.
    destruct (Tester.request_for _ _ _ _) as [q |];
      [destruct (N _ q) as [code text body | | |];
       [destruct (code =? expected) |..] |];
      cbn; console; rewrite ?app_nil_r; reflexivity.
  - intros Hc.
    destruct (run_test_on_accepting_console name method endpoint expected data
                hs s Hc) as [Hfst Hsnd].
    pose proof (run_test_eq P N name method endpoint expected data hs
                  (PrintingTester.tester s)) as Heq.
    cbv zeta in Heq. destruct Heq as (Hok & (d & Hres) & _).
    rewrite Hfst, Hsnd, Hres, <- Hok.
    destruct (Tester.run_test _ _ _ _ _ _ _ _ _) as [[b v] u]. cbn [fst snd].
    eexists. exists v. split; reflexivity.
Qed.

End PrintingTesterProperties.

(** A PUT that the backend answers with 200, on a console that cannot
    encode the status icons: the PASSED result is recorded, its print
    raises, the FAILED result of the [except] clause is recorded, its print
    raises too, and the exception leaves [run_test]. *)
Example run_test_on_ascii_console :
  let s := PrintingTester.mk
             (Tester.init Tester.sample_python "http://localhost:8001/api") [] in
  let out := PrintingTester.run_test Tester.sample_python Tester.sample_network
               PrintingTester.ascii_console "PUT /api/agents/x - Update agent"
               "PUT" "agents/x" 200 None None s in
  fst out = inl (PrintingTester.Exception "'ascii' codec can't encode character")
  /\ map Tester.status (Tester.test_results (PrintingTester.tester (snd out)))
     = ["PASSED"; "FAILED"]
  /\ Tester.tests_run (PrintingTester.tester (snd out)) = 2
  /\ Tester.tests_passed (PrintingTester.tester (snd out)) = 1.
Proof. repeat split. Qed.
